(* ===== verification/_CoqProject ===== *)
-Q . S2P
Prelude.v
JsValue.v
Stringify.v
Runtime.v
Handler.v
GitHubApi.v
HandlerSpec.v
HandlerCorrect.v
GitHubModel.v
GitHubRefine.v
Examples.v
