(* ===== verification/Prelude.v ===== *)
(** * A verification development of SlackIntegration's create-github-issue

    The repository holds one program,
    [src/supabase/functions/create-github-issue/index.ts]: a Deno edge
    function registered with [Deno.serve].  On every HTTP request it

    - reads [GITHUB_TOKEN], [GITHUB_OWNER], [GITHUB_REPO] from
      [Deno.env] and fixes [PROJECT_NUMBER = 1] (lines 16-23);
    - parses the request body and destructures [title], [body],
      [labels] (lines 26-30);
    - POSTs the issue to the GitHub REST API (lines 33-55);
    - queries the Projects-v2 board over GraphQL and finds the field
      named "Status" and its option "Icebox" (lines 58-108);
    - adds the issue to the board (lines 111-140) and sets its status
      (lines 143-175);
    - answers 201 with the issue URL, number and project URL, or, from
      the single [catch], 400 with the error message (lines 177-202).

    The program is a straight line of awaited calls; what makes it worth
    modelling is its JavaScript semantics: truthiness tests, property
    reads that throw [TypeError] on [undefined]/[null], [Array.prototype.find],
    [JSON.stringify], the order in which requests are sent and which
    results are read, and the one [catch] that turns every exception into
    a uniform 400 answer.

    ** Layout (files in dependency order)

    - [Prelude] (this file): the [gh_scope] notation scope, the [gh]
      hint database, the [inv]/[case_goal] tactics, generic lemmas on
      list prefixes, [List.find] and strings.
    - [JsValue] (Module [JsValue]): JavaScript values ([jsval]: JSON plus
      [undefined]) with a nested induction principle; [truthy] ([!x]),
      [strict_eq_str] ([x === "lit"]), [member]/[get]/[get_path] (property
      reads, V8's [TypeError] on [undefined]/[null]), [js_to_string]
      (template literals), the exceptions [exn] and [completion].
    - [Stringify] (Module [Stringify]): [JSON.stringify] with
      QuoteJSONString escaping; it prints every response body.
    - [Runtime] (Module [Runtime]): outbound [http_request]s and
      [http_response]s; the [Upstream] typeclass, the interface between
      the handler and GitHub (one [serve] step per request); the monad
      [M] (state: the upstream world and the requests sent, in order;
      result: a [completion]); [fetch], [read_json]/[resp_json], [catch];
      a small program logic ([traces]: which requests a computation
      sends; [returns_only]: what it returns normally) and the [step]
      tactic; the [scripted] instance, a queue of canned answers (the
      spec's mocked upstream).
    - [Handler] (Module [Handler]): index.ts itself, one Definition per
      stage, each naming its lines: [read_config] (16-23),
      [parse_request] (25-30), [create_issue] (32-55), [resolve_project]
      (57-108, with [call_find]/[find_m]/[has_name] for the two [find]s),
      [add_to_project] (110-140), [set_status] (142-175),
      [success_response]/[error_response] (177-202), composed by
      [handler_body] inside the [try] and [handler] with its [catch].
    - [GitHubApi] (Module [GitHubApi]): the shapes of GitHub's answers
      (issue, project fields and options, added item, GraphQL errors) and
      the typed lookup [find_status]/[find_icebox], the abstract
      specification of lines 96-108.
    - [HandlerSpec]: one lemma per stage and branch (run on any
      [Upstream]); [resolve_spec] and [resolve_project_spec], refining
      the lookup of lines 96-108 by the typed one; [request_stage] and the
      [traces] of every stage.
    - [HandlerCorrect]: the claims on the whole handler, for any
      [Upstream]: the uniform 201/400 answer (C1); each failure branch
      with the answer and the requests sent (C2-C6, C8, C14, C15); the
      success path with the data passed from one request to the next
      (C7); the order of the requests (C9); the refinement of the project
      lookup (C10).
    - [GitHubModel] (Module [GitHubModel]): a cooperating GitHub as an
      [Upstream] instance, modelled from spec section 6 (it is the
      environment, not code of the repository).  Its state holds the
      repository's issues (numbered from 1, with the closed and deleted
      ones), the project's fields, items and field values.  It answers
      the four requests the handler sends, the [PATCH] of an issue's
      [state] and the [deleteIssue] mutation (the requests a compensating
      client would send), and anything else with an error.
    - [GitHubRefine]: the handler against that model.  C11 is a
      refinement: one run adds exactly one issue and files it as Icebox.
      C12: without a Status field the world is left exactly as the issue
      creation left it, the issue open and unfiled (no rollback, spec
      section 4).  C13: on a board with Status and Icebox, any sequence
      of requests keeps every issue of the repository filed as Icebox,
      because each run either changes nothing or files its issue
      completely ([github_run_cases]).
    - [Examples]: the spec's end-to-end example computed on the scripted
      upstream, and a concrete instance of every claim with hypotheses,
      on the scripted upstream or on a model world.

    ** Choices

    No fuel or bounds are needed: the handler has no loop besides the two
    [find]s, which are structural over the arrays GitHub returns, so
    every [M] computation is a total function and the totality of the
    handler (C1) is a theorem about all inputs.  Numbers are [Z]
    integers: the handler reads issue numbers and prints the constant 1,
    and both are far below 2^53.  Strings are [String.string], one
    [ascii] per UTF-16 code unit of the texts involved.

    ** What modelling showed

    - With no "Status" field, line 102 throws a [TypeError] before the
      not-found guard of line 106, whose [!statusField] test is dead (C5).
    - The answer of the update mutation is never read: the handler
      reports success whatever GitHub says about the status (C7).
    - GraphQL failures surface as raw [TypeError] messages, with no
      [response.ok] or [errors] check (C8).
    - [PROJECT_NUMBER] is the constant 1; the [GITHUB_PROJECT_NUMBER]
      variable of the comment on line 219 is never read.

    - A failure after the item was added (a rejected update [fetch])
      leaves the issue on the board without a status, and the answer does
      not say which stage failed, which spec section 4 asks of an
      implementation (C14).

    ** Plan for the next steps

    + A JSON parser with the round trip [parse (stringify v) = v], so that
      the request and response bodies are the texts sent on the wire.
    + Rejected [fetch]es at the first three stages, a [SyntaxError] in
      each answer.

    What is not modelled: the HTTP server loop of [Deno.serve] (I/O), the
    bytes on the wire (a request body is the value given to
    [JSON.stringify], a response body is the value [Response.json()]
    yields or the [SyntaxError] it raises), and JavaScript numbers beyond
    integers. *)

From Stdlib Require Import String Ascii ZArith List Lia Bool.
Import ListNotations.

Declare Scope gh_scope.
Delimit Scope gh_scope with gh.

Create HintDb gh.
Create Rewrite HintDb gh_rw.

(** [l1] is a prefix of [l2]: the trace of a run that stopped early is a
    prefix of the trace of a run that went further. *)
Definition prefix {A : Type} (l1 l2 : list A) : Prop := exists r, l2 = l1 ++ r.

Infix "`prefix_of`" := prefix (at level 70) : gh_scope.

Ltac inv H := inversion H; subst; clear H.

(** Case on the first [if]/[match] scrutinee of the goal, keeping its
    equation. *)
Ltac case_goal :=
  match goal with
  | |- context [match ?x with _ => _ end] =>
      let E := fresh "E" in destruct x eqn:E
  end.

Section Prefix.
Context {A : Type}.

Lemma prefix_refl (l : list A) : prefix l l.
Proof. exists []. now rewrite app_nil_r. Qed.

Lemma prefix_nil (l : list A) : prefix [] l.
Proof. now exists l. Qed.

Lemma prefix_app (l r : list A) : prefix l (l ++ r).
Proof. now exists r. Qed.

Lemma prefix_cons (x : A) (l1 l2 : list A) :
  prefix l1 l2 -> prefix (x :: l1) (x :: l2).
Proof. intros [r ->]. now exists r. Qed.

Lemma prefix_trans (l1 l2 l3 : list A) :
  prefix l1 l2 -> prefix l2 l3 -> prefix l1 l3.
Proof. intros [r ->] [r' ->]. exists (r ++ r'). now rewrite app_assoc. Qed.
End Prefix.

#[export] Hint Resolve prefix_refl prefix_nil prefix_app prefix_cons : gh.

Section Find.
Context {A : Type} (p : A -> bool).

(** [List.find] returns the first element satisfying [p]. *)
Lemma find_first (l : list A) (x : A) :
  find p l = Some x ->
  exists l1 l2, l = l1 ++ x :: l2 /\ p x = true /\ Forall (fun y => p y = false) l1.
Proof.
  induction l as [|y l IH]; simpl; [discriminate|].
  destruct (p y) eqn:Hy.
  - intros [= <-]. now exists [], l.
  - intros H. destruct (IH H) as (l1 & l2 & -> & Hx & Hf).
    exists (y :: l1), l2. auto.
Qed.

Lemma find_none_forall (l : list A) :
  find p l = None <-> Forall (fun y => p y = false) l.
Proof.
  induction l as [|y l IH]; simpl; [split; auto|].
  destruct (p y) eqn:Hy; split.
  - discriminate.
  - intros H. inv H. congruence.
  - intros H. constructor; auto. now apply IH.
  - intros H. inv H. now apply IH.
Qed.
(** [find] through [map]. *)
Lemma find_map {B : Type} (f : B -> A) (l : list B) :
  find p (map f l) = option_map f (find (fun y => p (f y)) l).
Proof. induction l as [|y l IH]; simpl; [reflexivity|]. now destruct (p (f y)). Qed.
Lemma find_ext (q : A -> bool) (l : list A) :
  (forall x, p x = q x) -> find p l = find q l.
Proof. intros Hpq. induction l as [|y l IH]; simpl; [reflexivity|]. now rewrite Hpq, IH. Qed.
End Find.

(** Strings: [++] of [string_scope] is associative with [""] as unit. *)
Lemma string_app_assoc (a b c : string) : ((a ++ b) ++ c = a ++ (b ++ c))%string.
Proof. induction a as [|ch a IH]; simpl; [reflexivity|now rewrite IH]. Qed.

Lemma string_app_nil_r (a : string) : (a ++ "")%string = a.
Proof. induction a as [|ch a IH]; simpl; [reflexivity|now rewrite IH]. Qed.

(** [s] starts with [p]; recursive on [p], so that it computes when [s]
    is a literal followed by unknown text. *)
Fixpoint starts_with (p s : string) : bool :=
  match p, s with
  | EmptyString, _ => true
  | String a p', String b s' => Ascii.eqb a b && starts_with p' s'
  | String _ _, EmptyString => false
  end.

#[export] Hint Rewrite string_app_assoc string_app_nil_r : gh_rw.

(** [p] occurs in [s] ([s.includes(p)]). *)
Fixpoint contains (p s : string) : bool :=
  starts_with p s || match s with
                     | EmptyString => false
                     | String _ s' => contains p s'
                     end.
