(* ===== verification/JsValue.v ===== *)
(** JavaScript values as the handler of [index.ts] sees them: the results
    of [req.json()] and [Response.json()], the environment strings and the
    literals it builds.  Property reads, truthiness, strict equality with
    a string literal, [String(v)] in template literals, and the
    exceptions the runtime throws, with V8's messages. *)

From Stdlib Require Import String Ascii ZArith List Bool DecimalString.
From S2P Require Import Prelude.
Import ListNotations.
Open Scope string_scope.
Set Warnings "-register-all".

Module JsValue.

(** A JSON value or [undefined].  Numbers are the integers the handler
    reads and builds (issue numbers, the project number). *)
Inductive jsval : Type :=
| JUndefined
| JNull
| JBool (b : bool)
| JNum (n : Z)
| JStr (s : string)
| JArr (xs : list jsval)
| JObj (kvs : list (string * jsval)).

(** Nested induction: a property holds of an array or object when it
    holds of its elements. *)
Definition jsval_ind' (P : jsval -> Prop)
  (pu : P JUndefined) (pn : P JNull)
  (pb : forall b, P (JBool b)) (pz : forall n, P (JNum n))
  (ps : forall s, P (JStr s))
  (pa : forall xs, Forall P xs -> P (JArr xs))
  (po : forall kvs, Forall (fun kv => P (snd kv)) kvs -> P (JObj kvs)) :
  forall v, P v :=
  fix F v :=
    match v with
    | JUndefined => pu
    | JNull => pn
    | JBool b => pb b
    | JNum n => pz n
    | JStr s => ps s
    | JArr xs =>
        pa xs ((fix G l : Forall P l :=
                  match l with
                  | [] => Forall_nil _
                  | x :: l' => Forall_cons _ (F x) (G l')
                  end) xs)
    | JObj kvs =>
        po kvs ((fix G l : Forall (fun kv => P (snd kv)) l :=
                   match l with
                   | [] => Forall_nil _
                   | kv :: l' => Forall_cons _ (F (snd kv)) (G l')
                   end) kvs)
    end.

(** The exceptions the handler can meet: [throw new Error(..)] of the
    code, and the runtime's [TypeError] and [SyntaxError]. *)
Inductive exn : Type :=
| Error (message : string)
| TypeError (message : string)
| SyntaxError (message : string).

(** [error.message], read in the [catch] (index.ts line 195). *)
Definition exn_message (e : exn) : string :=
  match e with Error m | TypeError m | SyntaxError m => m end.

(** The completion of an evaluation step: a value or a thrown exception. *)
Inductive completion (A : Type) : Type :=
| Normal (a : A)
| Throw (e : exn).
Arguments Normal {A} a.
Arguments Throw {A} e.

(** [!v] is [negb (truthy v)]: [undefined], [null], [false], [0] and
    [""] are falsy, every other value (objects and arrays included) is
    truthy. *)
Definition truthy (v : jsval) : bool :=
  match v with
  | JUndefined | JNull => false
  | JBool b => b
  | JNum n => negb (Z.eqb n 0)
  | JStr s => negb (String.eqb s "")
  | JArr _ | JObj _ => true
  end.

(** [v === "lit"]: true exactly for the string [lit]. *)
Definition strict_eq_str (v : jsval) (lit : string) : bool :=
  match v with JStr s => String.eqb s lit | _ => false end.

(** First binding of [k] in an object's members. *)
Fixpoint lookup_key (k : string) (kvs : list (string * jsval)) : option jsval :=
  match kvs with
  | [] => None
  | (k', v) :: rest => if String.eqb k k' then Some v else lookup_key k rest
  end.

(** V8's message for a property read on [undefined] or [null]. *)
Definition read_error (base k : string) : exn :=
  TypeError ("Cannot read properties of " ++ base ++ " (reading '" ++ k ++ "')").

(** The member [k] of a value that is neither [undefined] nor [null],
    for the property names the handler reads (none of them is an index,
    ["length"] or an [Object.prototype] member): an object yields its
    member or [undefined], other values have no such property. *)
Definition member (v : jsval) (k : string) : jsval :=
  match v with
  | JObj kvs => match lookup_key k kvs with Some x => x | None => JUndefined end
  | _ => JUndefined
  end.

(** The property read [v.k]: [undefined] and [null] throw V8's
    [TypeError]. *)
Definition get (v : jsval) (k : string) : completion jsval :=
  match v with
  | JUndefined => Throw (read_error "undefined" k)
  | JNull => Throw (read_error "null" k)
  | _ => Normal (member v k)
  end.

(** A chain of reads [v.k1.k2...kn], as in
    [projectData.data.organization.projectV2.id]: left to right, the
    first [TypeError] stops it. *)
Fixpoint get_path (v : jsval) (ks : list string) : completion jsval :=
  match ks with
  | [] => Normal v
  | k :: ks' =>
      match get v k with
      | Normal x => get_path x ks'
      | Throw e => Throw e
      end
  end.

(** [Number.prototype.toString] on an integer: its decimal digits. *)
Definition number_to_string (n : Z) : string :=
  NilZero.string_of_int (Z.to_int n).

(** [String(v)], used by template literals [`..${v}..`]; an array is
    joined with [","], its [undefined]/[null] elements printing as
    empty. *)
Fixpoint js_to_string (v : jsval) : string :=
  match v with
  | JUndefined => "undefined"
  | JNull => "null"
  | JBool true => "true"
  | JBool false => "false"
  | JNum n => number_to_string n
  | JStr s => s
  | JArr xs =>
      let fix join (l : list jsval) : string :=
        match l with
        | [] => ""
        | [x] => match x with JUndefined | JNull => "" | _ => js_to_string x end
        | x :: l' =>
            (match x with JUndefined | JNull => "" | _ => js_to_string x end)
              ++ "," ++ join l'
        end in
      join xs
  | JObj _ => "[object Object]"
  end.

(** A read from a value that is neither [undefined] nor [null] never
    throws. *)
Lemma get_member (v : jsval) (k : string) :
  v <> JUndefined -> v <> JNull -> get v k = Normal (member v k).
Proof. destruct v; simpl; congruence. Qed.

(** Truthy values are not nullish. *)
Lemma truthy_not_nullish (v : jsval) : truthy v = true -> v <> JUndefined /\ v <> JNull.
Proof. destruct v; simpl; split; congruence. Qed.

End JsValue.
