(* ===== verification/Stringify.v ===== *)
(** [JSON.stringify] on the values of [JsValue], as the handler calls it
    for the GitHub error payload (index.ts line 52) and for both response
    bodies (lines 178-185 and 193-196): string escaping (ECMA-262
    QuoteJSONString, on 8-bit code units), [undefined] members omitted,
    [undefined] array elements printed as [null], no whitespace. *)

From Stdlib Require Import String Ascii ZArith NArith List Bool Lia.
From S2P Require Import Prelude JsValue.
Import ListNotations JsValue.
Open Scope string_scope.

Module Stringify.

(** The double quote and the backslash, as one-character strings. *)
Definition dq_char : ascii := ascii_of_N 34.
Definition bs_char : ascii := ascii_of_N 92.
Definition dq : string := String dq_char EmptyString.
Definition bs : string := String bs_char EmptyString.

(** A lowercase hexadecimal digit. *)
Definition hex_digit (n : N) : ascii :=
  if (n <? 10)%N then ascii_of_N (48 + n) else ascii_of_N (87 + n).

(** One code unit of QuoteJSONString. *)
Definition escape_char (c : ascii) : string :=
  let n := N_of_ascii c in
  if (n =? 34)%N then bs ++ dq
  else if (n =? 92)%N then bs ++ bs
  else if (n =? 8)%N then bs ++ "b"
  else if (n =? 9)%N then bs ++ "t"
  else if (n =? 10)%N then bs ++ "n"
  else if (n =? 12)%N then bs ++ "f"
  else if (n =? 13)%N then bs ++ "r"
  else if (n <? 32)%N then
    bs ++ "u00" ++ String (hex_digit (n / 16)) (String (hex_digit (n mod 16)) EmptyString)
  else String c EmptyString.

Fixpoint quote_chars (s : string) : string :=
  match s with
  | EmptyString => EmptyString
  | String c s' => escape_char c ++ quote_chars s'
  end.

(** QuoteJSONString: the escaped text between double quotes. *)
Definition quote (s : string) : string := dq ++ quote_chars s ++ dq.

(** [Array.prototype.join(",")] on already printed pieces. *)
Fixpoint join_comma (l : list string) : string :=
  match l with
  | [] => ""
  | [s] => s
  | s :: l' => s ++ "," ++ join_comma l'
  end.

(** [JSON.stringify(v)]: [None] is the [undefined] it returns for
    [undefined]. *)
Fixpoint stringify (v : jsval) : option string :=
  match v with
  | JUndefined => None
  | JNull => Some "null"
  | JBool b => Some (if b then "true" else "false")
  | JNum n => Some (number_to_string n)
  | JStr s => Some (quote s)
  | JArr xs =>
      Some ("[" ++ join_comma
                     (map (fun x => match stringify x with
                                    | Some s => s
                                    | None => "null"
                                    end) xs) ++ "]")
  | JObj kvs =>
      let fix members (l : list (string * jsval)) : list string :=
        match l with
        | [] => []
        | (k, x) :: l' =>
            match stringify x with
            | Some s => (quote k ++ ":" ++ s) :: members l'
            | None => members l'
            end
        end in
      Some ("{" ++ join_comma (members kvs) ++ "}")
  end.

End Stringify.
