(* ===== verification/Runtime.v ===== *)
(** The effects of the handler: outbound HTTP requests through [fetch],
    reading a response with [Response.json()], and exceptions.  The
    upstream (GitHub, or a test double) is an interface, [Upstream]: a
    world that answers one request at a time.  Handler code runs in a
    state-and-exception monad [M] whose state is the upstream world and
    the list of requests sent so far, in order. *)

From Stdlib Require Import String ZArith List Bool.
From S2P Require Import Prelude JsValue.
Import ListNotations JsValue.
Open Scope string_scope.

Module Runtime.

(** An outbound request, as passed to [fetch(url, {method, headers, body})].
    [body] is the value given to [JSON.stringify]: the text sent is
    [Stringify.stringify body]. *)
Record http_request : Type := mk_request {
  url : string;
  method : string;
  headers : list (string * string);
  body : jsval
}.

(** What [Response.json()] does with the body of a response: the parsed
    value, or the [SyntaxError] message of a body that is not JSON. *)
Inductive body_read : Type :=
| BodyJson (v : jsval)
| BodyInvalid (syntax_message : string).

Record http_response : Type := mk_response {
  status : Z;
  payload : body_read
}.

(** [Response.ok]: a 2xx status. *)
Definition ok (r : http_response) : bool := (200 <=? status r)%Z && (status r <=? 299)%Z.

(** A [fetch] either resolves to a response or rejects with a
    [TypeError] (network failure). *)
Inductive fetch_result : Type :=
| Fetched (r : http_response)
| Rejected (message : string).

(** The upstream interface: a world answering requests one at a time. *)
Class Upstream (W : Type) := {
  serve : W -> http_request -> fetch_result * W
}.

Section Monad.
Context {W : Type}.

(** The runtime state: the upstream world and the requests sent. *)
Record rt : Type := mk_rt { world : W; sent : list http_request }.

Definition M (A : Type) : Type := rt -> completion A * rt.

Definition ret {A} (a : A) : M A := fun s => (Normal a, s).

Definition bind {A B} (c : M A) (k : A -> M B) : M B :=
  fun s => match c s with
           | (Normal a, s') => k a s'
           | (Throw e, s') => (Throw e, s')
           end.

Definition throw {A} (e : exn) : M A := fun s => (Throw e, s).

(** A pure evaluation step that may throw ([v.k], a destructuring). *)
Definition lift {A} (c : completion A) : M A := fun s => (c, s).

(** [try { c } catch (e) { h(e) }]. *)
Definition catch {A} (c : M A) (h : exn -> M A) : M A :=
  fun s => match c s with
           | (Normal a, s') => (Normal a, s')
           | (Throw e, s') => h e s'
           end.

(** [await x.json()] on a request or a response: the parsed body, or
    the [SyntaxError] of a body that is not JSON. *)
Definition read_json (b : body_read) : M jsval :=
  match b with
  | BodyJson v => ret v
  | BodyInvalid m => throw (SyntaxError m)
  end.

(** [await response.json()]. *)
Definition resp_json (r : http_response) : M jsval := read_json (payload r).
End Monad.

Arguments M : clear implicits.
Arguments rt : clear implicits.

Notation "'let*' x ':=' c 'in' k" := (bind c (fun x => k))
  (at level 61, x name, c at next level, right associativity) : gh_scope.
Notation "c ;; k" := (bind c (fun _ => k))
  (at level 61, right associativity) : gh_scope.
Open Scope gh_scope.

Section Fetch.
Context {W : Type} `{Upstream W}.

(** [await fetch(r)]: the request is recorded, the world answers it. *)
Definition fetch (r : http_request) : M W http_response :=
  fun s =>
    let '(o, w') := serve (world s) r in
    let s' := mk_rt w' (sent s ++ [r]) in
    match o with
    | Fetched resp => (Normal resp, s')
    | Rejected m => (Throw (TypeError m), s')
    end.
End Fetch.

(** A test double: a world that is the queue of the answers still to
    give; an exhausted queue rejects.  It is the mocked upstream of the
    spec's testable properties. *)
#[export] Instance scripted : Upstream (list fetch_result) := {
  serve := fun w _ =>
    match w with
    | [] => (Rejected "no scripted answer", [])
    | o :: w' => (o, w')
    end
}.

(** ** A program logic for [M]

    [traces cls c L]: from any state, the requests [c] sends, classified
    by [cls], form a prefix of [L], all of [L] when [c] returns normally;
    and nothing is ever removed from the record of requests sent.
    [returns_only c P]: every normal result of [c] satisfies [P]. *)
Section Logic.
Context {W : Type} `{Upstream W} {B : Type} (cls : http_request -> B).
Local Open Scope list_scope.

Definition traces {A} (c : M W A) (L : list B) : Prop :=
  forall s, exists added,
    sent (snd (c s)) = sent s ++ added /\ prefix (map cls added) L /\
    (forall a, fst (c s) = Normal a -> map cls added = L).

Lemma traces_ret {A} (a : A) : traces (ret a) [].
Proof. intros s. exists []. simpl. rewrite app_nil_r. auto using prefix_refl. Qed.

Lemma traces_throw {A} (e : exn) : traces (@throw W A e) [].
Proof. intros s. exists []. simpl. rewrite app_nil_r. split; [|split]; auto using prefix_refl; discriminate. Qed.

Lemma traces_lift {A} (c : completion A) : traces (@lift W A c) [].
Proof. intros s. exists []. simpl. rewrite app_nil_r. auto using prefix_refl. Qed.

Lemma traces_read_json (b : body_read) : traces (read_json b) [].
Proof. destruct b; [apply traces_ret | apply traces_throw]. Qed.

Lemma traces_fetch (r : http_request) : traces (fetch r) [cls r].
Proof.
  intros s. exists [r]. unfold fetch.
  destruct (serve (world s) r) as [[resp|m] w']; simpl; auto using prefix_refl.
Qed.

Lemma traces_bind {A C} (c : M W A) (k : A -> M W C) (L1 L2 : list B) :
  traces c L1 -> (forall a, traces (k a) L2) -> traces (bind c k) (L1 ++ L2).
Proof.
  intros Hc Hk s. unfold bind.
  destruct (Hc s) as (a1 & Hs1 & Hp1 & Hn1).
  destruct (c s) as [[a|e] s1]; simpl in *.
  - destruct (Hk a s1) as (a2 & Hs2 & Hp2 & Hn2).
    exists (a1 ++ a2). rewrite Hs2, Hs1, app_assoc, map_app, (Hn1 a eq_refl).
    split; [reflexivity|split].
    + destruct Hp2 as [r ->]. exists r. now rewrite app_assoc.
    + intros b Hb. now rewrite (Hn2 b Hb).
  - exists a1. split; [assumption|split].
    + eapply prefix_trans; [exact Hp1|apply prefix_app].
    + discriminate.
Qed.

Lemma traces_if {A} (b : bool) (c1 c2 : M W A) (L : list B) :
  traces c1 L -> traces c2 L -> traces (if b then c1 else c2) L.
Proof. destruct b; auto. Qed.

(** A [catch] keeps the prefix property of its body when its handler
    sends nothing. *)
Lemma traces_catch {A} (c : M W A) (h : exn -> M W A) (L : list B) :
  traces c L -> (forall e, traces (h e) []) ->
  forall s, exists added,
    sent (snd (catch c h s)) = sent s ++ added /\ prefix (map cls added) L.
Proof.
  intros Hc Hh s. unfold catch.
  destruct (Hc s) as (a1 & Hs1 & Hp1 & _).
  destruct (c s) as [[a|e] s1]; simpl in *; [eauto|].
  destruct (Hh e s1) as (a2 & Hs2 & Hp2 & _).
  exists (a1 ++ a2). rewrite Hs2, Hs1, app_assoc, map_app. split; [reflexivity|].
  destruct Hp2 as [r Hr]. symmetry in Hr. apply app_eq_nil in Hr as [-> _].
  now rewrite app_nil_r.
Qed.

Definition returns_only {A} (c : M W A) (P : A -> Prop) : Prop :=
  forall s a s', c s = (Normal a, s') -> P a.

Lemma returns_only_ret {A} (a : A) (P : A -> Prop) : P a -> returns_only (ret a) P.
Proof. intros Ha s a' s' [= <- _]. exact Ha. Qed.

Lemma returns_only_bind {A C} (c : M W A) (k : A -> M W C) (P : C -> Prop) :
  (forall a, returns_only (k a) P) -> returns_only (bind c k) P.
Proof.
  intros Hk s b s'. unfold bind.
  destruct (c s) as [[a|e] s1]; [apply Hk|discriminate].
Qed.
Lemma returns_only_bind_post {A C} (c : M W A) (k : A -> M W C) (Q : A -> Prop) (P : C -> Prop) :
  returns_only c Q -> (forall a, Q a -> returns_only (k a) P) -> returns_only (bind c k) P.
Proof.
  intros Hc Hk s b s'. unfold bind.
  destruct (c s) as [[a|e] s1] eqn:E; [|discriminate]. apply (Hk a (Hc _ _ _ E)).
Qed.
End Logic.

#[export] Hint Resolve traces_ret traces_throw traces_lift traces_read_json traces_fetch
  traces_if returns_only_ret : gh.

(** Running a composed computation one step at a time. *)
Section Run.
Context {W : Type}.

Lemma bind_normal {A C} (c : M W A) (k : A -> M W C) s a s' :
  c s = (Normal a, s') -> bind c k s = k a s'.
Proof. intros Hc. unfold bind. now rewrite Hc. Qed.

Lemma bind_throw {A C} (c : M W A) (k : A -> M W C) s e s' :
  c s = (Throw e, s') -> bind c k s = (Throw e, s').
Proof. intros Hc. unfold bind. now rewrite Hc. Qed.

Lemma catch_normal {A} (c : M W A) (h : exn -> M W A) s a s' :
  c s = (Normal a, s') -> catch c h s = (Normal a, s').
Proof. intros Hc. unfold catch. now rewrite Hc. Qed.

Lemma catch_throw {A} (c : M W A) (h : exn -> M W A) s e s' :
  c s = (Throw e, s') -> catch c h s = h e s'.
Proof. intros Hc. unfold catch. now rewrite Hc. Qed.

(** [traces]-style bind where the split of the expected trace is left
    to unification. *)
Lemma traces_bind_l `{Upstream W} {B A C} (cls : http_request -> B)
      (c : M W A) (k : A -> M W C) (L1 L2 L : list B) :
  traces cls c L1 -> (forall a, traces cls (k a) L2) -> L = (L1 ++ L2)%list ->
  traces cls (bind c k) L.
Proof. intros Hc Hk ->. now apply traces_bind. Qed.
End Run.

(** [step H]: run the first stage of a [bind] with the equation [H]
    gives for it. *)
Tactic Notation "step" uconstr(H) :=
  first [ erewrite bind_normal by (eapply H; eauto)
        | erewrite bind_throw by (eapply H; eauto) ].

End Runtime.
