(* ===== verification/Handler.v ===== *)
(** The handler passed to [Deno.serve] in
    [src/supabase/functions/create-github-issue/index.ts], stage by
    stage, as computations of [Runtime.M] over any [Upstream].  Each
    Definition names the lines it translates; [handler] composes them
    inside the [try]/[catch] of lines 14 and 191-202. *)

From Stdlib Require Import String ZArith List Bool.
From S2P Require Import Prelude JsValue Stringify Runtime.
Import ListNotations JsValue Stringify Runtime.
Open Scope string_scope.
Open Scope gh_scope.

Module Handler.

(** The three GraphQL documents, character for character (lines 58-78,
    111-122, 143-158). *)
Definition projectQuery : string := "
      query($owner: String!, $number: Int!) {
        organization(login: $owner) {
          projectV2(number: $number) {
            id
            fields(first: 20) {
              nodes {
                ... on ProjectV2SingleSelectField {
                  id
                  name
                  options {
                    id
                    name
                  }
                }
              }
            }
          }
        }
      }
    ".

Definition addToProjectMutation : string := "
      mutation($projectId: ID!, $contentId: ID!) {
        addProjectV2ItemById(input: {
          projectId: $projectId
          contentId: $contentId
        }) {
          item {
            id
          }
        }
      }
    ".

Definition updateFieldMutation : string := "
      mutation($projectId: ID!, $itemId: ID!, $fieldId: ID!, $optionId: String!) {
        updateProjectV2ItemFieldValue(input: {
          projectId: $projectId
          itemId: $itemId
          fieldId: $fieldId
          value: { 
            singleSelectOptionId: $optionId
          }
        }) {
          projectV2Item {
            id
          }
        }
      }
    ".

(** [const PROJECT_NUMBER = 1] (line 19). *)
Definition PROJECT_NUMBER : Z := 1.

(** [Deno.env.get(k)]: the variable's string, or [undefined]. *)
Definition env_get (env : string -> option string) (k : string) : jsval :=
  match env k with Some s => JStr s | None => JUndefined end.

Record config : Type := mk_config {
  GITHUB_TOKEN : jsval;
  GITHUB_OWNER : jsval;
  GITHUB_REPO : jsval
}.

(** Lines 16-18. *)
Definition env_config (env : string -> option string) : config :=
  mk_config (env_get env "GITHUB_TOKEN") (env_get env "GITHUB_OWNER")
            (env_get env "GITHUB_REPO").

(** [interface IssueRequest] (lines 7-11), as destructured on line 26. *)
Record issue_request : Type := mk_issue_request {
  title : jsval;
  body : jsval;
  labels : jsval
}.

(** [const { title, body, labels } = v] for a [v] that is not nullish. *)
Definition issue_request_of (v : jsval) : issue_request :=
  mk_issue_request (member v "title") (member v "body") (member v "labels").

(** V8's message when the destructured value is [undefined] or [null]:
    the first property, [title], names the failure. *)
Definition destructure_error (base : string) : exn :=
  TypeError ("Cannot destructure property 'title' of '(intermediate value)' as it is "
             ++ base ++ ".").

Definition destructure_request (v : jsval) : completion issue_request :=
  match v with
  | JUndefined => Throw (destructure_error "undefined")
  | JNull => Throw (destructure_error "null")
  | _ => Normal (issue_request_of v)
  end.

Section WithUpstream.
Context {W : Type} `{Upstream W}.

(** Lines 16-23. *)
Definition read_config (env : string -> option string) : M W config :=
  let cfg := env_config env in
  if negb (truthy (GITHUB_TOKEN cfg)) || negb (truthy (GITHUB_OWNER cfg))
     || negb (truthy (GITHUB_REPO cfg)) || negb (truthy (JNum PROJECT_NUMBER))
  then throw (Error "Required environment variables are not set")
  else ret cfg.

(** Lines 26-30: [await req.json()], the destructuring, the title test. *)
Definition parse_request (req : body_read) : M W issue_request :=
  let* v := read_json req in
  let* r := lift (destructure_request v) in
  if negb (truthy (title r)) then throw (Error "Issue title is required")
  else ret r.
End WithUpstream.

(** [`Bearer ${GITHUB_TOKEN}`] (lines 39, 83, 127, 163). *)
Definition bearer (cfg : config) : string := "Bearer " ++ js_to_string (GITHUB_TOKEN cfg).

(** The issue-creation request (lines 33-48). *)
Definition create_issue_request (cfg : config) (r : issue_request) : http_request :=
  mk_request
    ("https://api.github.com/repos/" ++ js_to_string (GITHUB_OWNER cfg) ++ "/"
       ++ js_to_string (GITHUB_REPO cfg) ++ "/issues")
    "POST"
    [("Accept", "application/vnd.github.v3+json");
     ("Authorization", bearer cfg);
     ("Content-Type", "application/json")]
    (JObj [("title", title r); ("body", body r); ("labels", labels r)]).

(** The three GraphQL POSTs share their URL, method and headers (lines
    80-93, 124-137, 160-175). *)
Definition graphql_request (cfg : config) (query : string) (variables : jsval) : http_request :=
  mk_request "https://api.github.com/graphql" "POST"
    [("Authorization", bearer cfg); ("Content-Type", "application/json")]
    (JObj [("query", JStr query); ("variables", variables)]).

(** Lines 80-93: [parseInt(PROJECT_NUMBER)] is [PROJECT_NUMBER]. *)
Definition project_query_request (cfg : config) : http_request :=
  graphql_request cfg projectQuery
    (JObj [("owner", GITHUB_OWNER cfg); ("number", JNum PROJECT_NUMBER)]).

(** Lines 124-137. *)
Definition add_item_request (cfg : config) (projectId contentId : jsval) : http_request :=
  graphql_request cfg addToProjectMutation
    (JObj [("projectId", projectId); ("contentId", contentId)]).

(** Lines 160-175. *)
Definition update_field_request (cfg : config) (projectId itemId fieldId optionId : jsval)
  : http_request :=
  graphql_request cfg updateFieldMutation
    (JObj [("projectId", projectId); ("itemId", itemId);
           ("fieldId", fieldId); ("optionId", optionId)]).

(** [`${JSON.stringify(error)}`] (line 52). *)
Definition template_stringify (v : jsval) : string :=
  match stringify v with Some s => s | None => "undefined" end.

(** V8's message for calling a value that is not a function. *)
Definition not_function_error (callee : string) : exn :=
  TypeError (callee ++ " is not a function").

(** The handler's view of the project: the three values read on lines
    96-104. *)
Record project_meta : Type := mk_project_meta {
  projectId : jsval;
  statusField : jsval;
  iceboxOption : jsval
}.

Section Stages.
Context {W : Type} `{Upstream W}.

(** Lines 33-55. *)
Definition create_issue (cfg : config) (r : issue_request) : M W jsval :=
  let* issueResponse := fetch (create_issue_request cfg r) in
  if negb (ok issueResponse) then
    let* error := resp_json issueResponse in
    throw (Error ("GitHub API error: " ++ template_stringify error))
  else resp_json issueResponse.

(** [Array.prototype.find] with a callback that may throw. *)
Fixpoint find_m (p : jsval -> M W bool) (xs : list jsval) : M W jsval :=
  match xs with
  | [] => ret JUndefined
  | x :: xs' => let* b := p x in if b then ret x else find_m p xs'
  end.

(** [recv.find(p)] where the source text of [recv.find] is [callee]. *)
Definition call_find (recv : jsval) (callee : string) (p : jsval -> M W bool) : M W jsval :=
  match recv with
  | JArr xs => find_m p xs
  | JUndefined => throw (read_error "undefined" "find")
  | JNull => throw (read_error "null" "find")
  | _ => throw (not_function_error callee)
  end.

(** The callbacks of lines 100 and 103: [(x) => x.name === lit]. *)
Definition has_name (lit : string) (x : jsval) : M W bool :=
  let* n := lift (get x "name") in ret (strict_eq_str n lit).

(** Lines 80-108. *)
Definition resolve_project (cfg : config) : M W project_meta :=
  let* projectResponse := fetch (project_query_request cfg) in
  let* projectData := resp_json projectResponse in
  let* projectId := lift (get_path projectData ["data"; "organization"; "projectV2"; "id"]) in
  let* nodes := lift (get_path projectData
                        ["data"; "organization"; "projectV2"; "fields"; "nodes"]) in
  let* statusField := call_find nodes "projectData.data.organization.projectV2.fields.nodes.find"
                        (has_name "Status") in
  let* options := lift (get statusField "options") in
  let* iceboxOption := call_find options "statusField.options.find" (has_name "Icebox") in
  if negb (truthy statusField) || negb (truthy iceboxOption)
  then throw (Error "Status field or Icebox option not found in the project")
  else ret (mk_project_meta projectId statusField iceboxOption).

(** Lines 124-140: [issue.node_id] is read while the request is built. *)
Definition add_to_project (cfg : config) (pm : project_meta) (issue : jsval) : M W jsval :=
  let* contentId := lift (get issue "node_id") in
  let* addToProjectResponse := fetch (add_item_request cfg (projectId pm) contentId) in
  let* projectItemData := resp_json addToProjectResponse in
  lift (get_path projectItemData ["data"; "addProjectV2ItemById"; "item"; "id"]).

(** Lines 160-175: the response is awaited and never read. *)
Definition set_status (cfg : config) (pm : project_meta) (itemId : jsval) : M W unit :=
  let* fieldId := lift (get (statusField pm) "id") in
  let* optionId := lift (get (iceboxOption pm) "id") in
  let* _ := fetch (update_field_request cfg (projectId pm) itemId fieldId optionId) in
  ret tt.
End Stages.

(** [new Response(JSON.stringify(v), {headers, status})]. *)
Record response : Type := mk_resp {
  res_status : Z;
  res_headers : list (string * string);
  res_body : option string
}.

Definition json_response (v : jsval) (st : Z) : response :=
  mk_resp st [("Content-Type", "application/json")] (stringify v).

(** [`https://github.com/orgs/${GITHUB_OWNER}/projects/${PROJECT_NUMBER}`]
    (line 183). *)
Definition project_url (cfg : config) : string :=
  "https://github.com/orgs/" ++ js_to_string (GITHUB_OWNER cfg) ++ "/projects/"
    ++ js_to_string (JNum PROJECT_NUMBER).

(** The success body of lines 178-185. *)
Definition success_body (cfg : config) (issue_url issue_number : jsval) : jsval :=
  JObj [("success", JBool true);
        ("data", JObj [("issue_url", issue_url); ("issue_number", issue_number);
                       ("project_url", JStr (project_url cfg))])].

(** The failure body of lines 193-196. *)
Definition error_body (e : exn) : jsval :=
  JObj [("success", JBool false); ("error", JStr (exn_message e))].

(** Lines 192-201. *)
Definition error_response (e : exn) : response := json_response (error_body e) 400.

Section Handler.
Context {W : Type} `{Upstream W}.

(** Lines 177-190: [issue.html_url] and [issue.number] are read last. *)
Definition success_response (cfg : config) (issue : jsval) : M W response :=
  let* issue_url := lift (get issue "html_url") in
  let* issue_number := lift (get issue "number") in
  ret (json_response (success_body cfg issue_url issue_number) 201).

(** The body of the [try] (lines 15-190). *)
Definition handler_body (env : string -> option string) (req : body_read) : M W response :=
  let* cfg := read_config env in
  let* r := parse_request req in
  let* issue := create_issue cfg r in
  let* pm := resolve_project cfg in
  let* itemId := add_to_project cfg pm issue in
  let* _ := set_status cfg pm itemId in
  success_response cfg issue.

(** The function given to [Deno.serve] (lines 13-203). *)
Definition handler (env : string -> option string) (req : body_read) : M W response :=
  catch (handler_body env req) (fun e => ret (error_response e)).

(** One request served from world [w]: the answer, and the runtime
    state after it (the world and the requests sent, in order). *)
Definition run_handler (env : string -> option string) (req : body_read) (w : W)
  : completion response * rt W :=
  handler env req (mk_rt w []).
End Handler.

End Handler.
