(* ===== verification/GitHubApi.v ===== *)
(** The answers GitHub gives to the handler's four requests, as typed
    values and their JSON shapes (spec section 6): the created issue, the
    project metadata of the GraphQL query (single-select fields with their
    options; other field kinds match no inline fragment and come back as
    [{}]), and the item created by [addProjectV2ItemById].  The typed
    lookup [find_status]/[find_icebox] is the abstract specification of
    lines 96-108: the first single-select field named "Status" and its
    first option named "Icebox". *)

From Stdlib Require Import String ZArith List Bool.
From S2P Require Import Prelude JsValue.
Import ListNotations JsValue.
Open Scope string_scope.

Module GitHubApi.

(** A node of [fields(first: 20) { nodes { ... on ProjectV2SingleSelectField
    { id name options { id name } } } }]. *)
Inductive field_node : Type :=
| SingleSelect (fid name : string) (opts : list (string * string))
| OtherField.

Definition option_json (o : string * string) : jsval :=
  JObj [("id", JStr (fst o)); ("name", JStr (snd o))].

Definition field_json (f : field_node) : jsval :=
  match f with
  | SingleSelect fid name opts =>
      JObj [("id", JStr fid); ("name", JStr name); ("options", JArr (map option_json opts))]
  | OtherField => JObj []
  end.

(** [{"data":{"organization":{"projectV2":{"id":..,"fields":{"nodes":[..]}}}}}]. *)
Definition project_data (pid : string) (fields : list field_node) : jsval :=
  JObj [("data", JObj [("organization", JObj [("projectV2",
    JObj [("id", JStr pid); ("fields", JObj [("nodes", JArr (map field_json fields))])])])])].

(** A GraphQL answer that failed as a whole: [data] is [null]. *)
Definition graphql_errors (message : string) : jsval :=
  JObj [("data", JNull); ("errors", JArr [JObj [("message", JStr message)]])].

(** The REST issue object, with the three members the handler reads. *)
Definition issue_json (node_id html_url : string) (number : Z) : jsval :=
  JObj [("node_id", JStr node_id); ("html_url", JStr html_url); ("number", JNum number)].

(** [{"data":{"addProjectV2ItemById":{"item":{"id":..}}}}]. *)
Definition add_item_data (item : string) : jsval :=
  JObj [("data", JObj [("addProjectV2ItemById", JObj [("item", JObj [("id", JStr item)])])])].

Definition field_named (name : string) (f : field_node) : bool :=
  match f with SingleSelect _ n _ => String.eqb n name | OtherField => false end.

(** The first single-select field named "Status": its id and options. *)
Definition find_status (fields : list field_node) : option (string * list (string * string)) :=
  match find (field_named "Status") fields with
  | Some (SingleSelect fid _ opts) => Some (fid, opts)
  | _ => None
  end.

(** The id of the first option named "Icebox". *)
Definition find_icebox (opts : list (string * string)) : option string :=
  option_map fst (find (fun o => String.eqb (snd o) "Icebox") opts).

End GitHubApi.
