(* ===== verification/HandlerSpec.v ===== *)
(** What the handler of [index.ts] does, stage by stage and as a whole,
    for any [Upstream]: the stage lemmas (one per Definition of
    [Handler]), the refinement of the Status/Icebox lookup by the typed
    specification of [GitHubApi], and the theorems on every branch of
    [handler], the order of the requests it sends, and its uniform
    answer. *)

From Stdlib Require Import String ZArith List Bool.
From S2P Require Import Prelude JsValue Stringify Runtime Handler GitHubApi.
Import ListNotations JsValue Stringify Runtime Handler GitHubApi.
Open Scope string_scope.
Open Scope gh_scope.

Module HandlerSpec.

(** [Deno.env.get(k)] is a non-empty string. *)
Definition present (env : string -> option string) (k : string) : Prop :=
  exists v, env k = Some v /\ v <> "".

Lemma truthy_env_get (env : string -> option string) (k : string) :
  truthy (env_get env k) = true <-> present env k.
Proof.
  unfold env_get, present. destruct (env k) as [v|]; simpl.
  - rewrite negb_true_iff, String.eqb_neq. split; [eauto|].
    intros (v' & [= <-] & Hv). exact Hv.
  - split; [discriminate|]. intros (v' & Hv & _). discriminate.
Qed.

(** The three variables the guard of line 21 tests. *)
Definition config_present (env : string -> option string) : Prop :=
  present env "GITHUB_TOKEN" /\ present env "GITHUB_OWNER" /\ present env "GITHUB_REPO".

(** A parsed request body that passes lines 26-30. *)
Definition titled (v : jsval) : Prop :=
  v <> JUndefined /\ v <> JNull /\ truthy (member v "title") = true.

Lemma destructure_request_ok (v : jsval) :
  v <> JUndefined -> v <> JNull -> destructure_request v = Normal (issue_request_of v).
Proof. destruct v; simpl; congruence. Qed.

Section Stages.
Context {W : Type} `{Upstream W}.

Lemma read_config_ok env (s : rt W) :
  config_present env -> read_config env s = (Normal (env_config env), s).
Proof.
  intros (Ht & Ho & Hr). unfold read_config. simpl.
  apply truthy_env_get in Ht, Ho, Hr. now rewrite Ht, Ho, Hr.
Qed.

Lemma read_config_missing env k (s : rt W) :
  In k ["GITHUB_TOKEN"; "GITHUB_OWNER"; "GITHUB_REPO"] -> ~ present env k ->
  read_config env s = (Throw (Error "Required environment variables are not set"), s).
Proof.
  intros Hk Hp. rewrite <- truthy_env_get, not_true_iff_false in Hp.
  unfold read_config. simpl.
  destruct Hk as [<-|[<-|[<-|[]]]]; rewrite Hp; simpl;
    [|now destruct (truthy (env_get env "GITHUB_TOKEN"))
     |now destruct (truthy (env_get env "GITHUB_TOKEN")), (truthy (env_get env "GITHUB_OWNER"))].
  reflexivity.
Qed.

Lemma parse_request_ok v (s : rt W) :
  titled v -> parse_request (BodyJson v) s = (Normal (issue_request_of v), s).
Proof.
  intros (Hu & Hn & Ht). unfold parse_request, bind, read_json, ret, lift.
  rewrite destructure_request_ok by assumption. cbn [title issue_request_of]. now rewrite Ht.
Qed.

Lemma parse_request_no_title v (s : rt W) :
  v <> JUndefined -> v <> JNull -> truthy (member v "title") = false ->
  parse_request (BodyJson v) s = (Throw (Error "Issue title is required"), s).
Proof.
  intros Hu Hn Ht. unfold parse_request, bind, read_json, ret, lift.
  rewrite destructure_request_ok by assumption. cbn [title issue_request_of]. now rewrite Ht.
Qed.

(** Lines 26-27: a body that is not JSON, or is [null], is refused
    before the title is looked at. *)
Lemma parse_request_invalid m (s : rt W) :
  parse_request (BodyInvalid m) s = (Throw (SyntaxError m), s).
Proof. reflexivity. Qed.

Lemma parse_request_null (s : rt W) :
  parse_request (BodyJson JNull) s = (Throw (destructure_error "null"), s).
Proof. reflexivity. Qed.

(** Every request either passes lines 25-30 or is refused there, with
    nothing sent. *)
Lemma parse_request_cases req (s : rt W) :
  (exists v, req = BodyJson v /\ titled v) \/ exists e, parse_request req s = (Throw e, s).
Proof.
  destruct req as [v|m]; [|right; eexists; apply parse_request_invalid].
  destruct v eqn:Ev; try (right; eexists; reflexivity);
    (destruct (truthy (member v "title")) eqn:Ht; subst v;
     [left; eexists; split; [reflexivity|repeat split; (discriminate || exact Ht)]
     |right; eexists; apply parse_request_no_title; (discriminate || exact Ht)]).
Qed.

Lemma create_issue_ok cfg r (s : rt W) resp w' issue :
  serve (world s) (create_issue_request cfg r) = (Fetched resp, w') ->
  ok resp = true -> payload resp = BodyJson issue ->
  create_issue cfg r s = (Normal issue, mk_rt w' (sent s ++ [create_issue_request cfg r])).
Proof.
  intros Hs Hok Hp. unfold create_issue, bind, fetch. rewrite Hs, Hok. simpl.
  unfold resp_json, read_json. now rewrite Hp.
Qed.

(** Lines 50-53: the error payload is read, printed and thrown. *)
Lemma create_issue_failed cfg r (s : rt W) resp w' :
  serve (world s) (create_issue_request cfg r) = (Fetched resp, w') ->
  ok resp = false ->
  create_issue cfg r s =
    (Throw (match payload resp with
            | BodyJson error => Error ("GitHub API error: " ++ template_stringify error)
            | BodyInvalid m => SyntaxError m
            end), mk_rt w' (sent s ++ [create_issue_request cfg r])).
Proof.
  intros Hs Hok. unfold create_issue, bind, fetch. rewrite Hs, Hok. simpl.
  unfold resp_json, read_json. now destruct (payload resp).
Qed.
(** [find] on an array whose elements are not nullish is [List.find]
    with the callback's test; an absent element is [undefined]. *)
Lemma find_m_has_name (lit : string) (xs : list jsval) (s : rt W) :
  Forall (fun x => x <> JUndefined /\ x <> JNull) xs ->
  find_m (has_name lit) xs s =
    (Normal (match find (fun x => strict_eq_str (member x "name") lit) xs with
             | Some x => x
             | None => JUndefined
             end), s).
Proof.
  induction 1 as [|x xs [Hu Hn] _ IH]; [reflexivity|].
  simpl. unfold bind at 1, has_name, bind, lift, ret. rewrite get_member by assumption.
  now destruct (strict_eq_str (member x "name") lit).
Qed.

(** The first [undefined] read (line 102) when no field is "Status". *)
Definition options_error : exn := read_error "undefined" "options".

(** Line 107. *)
Definition not_found_error : exn := Error "Status field or Icebox option not found in the project".

(** What lines 96-108 compute on a project answer of GitHub's shape, in
    terms of the typed lookup. *)
Definition resolve_spec (pid : string) (fields : list field_node) : completion project_meta :=
  match find_status fields with
  | None => Throw options_error
  | Some (fid, opts) =>
      match find_icebox opts with
      | None => Throw not_found_error
      | Some oid =>
          Normal (mk_project_meta (JStr pid) (field_json (SingleSelect fid "Status" opts))
                                  (option_json (oid, "Icebox")))
      end
  end.
End Stages.

Lemma field_json_not_nullish (fields : list field_node) :
  Forall (fun x => x <> JUndefined /\ x <> JNull) (map field_json fields).
Proof. induction fields as [|[] fields IH]; constructor; auto; simpl; split; discriminate. Qed.

Lemma option_json_not_nullish (opts : list (string * string)) :
  Forall (fun x => x <> JUndefined /\ x <> JNull) (map option_json opts).
Proof. induction opts; constructor; auto; simpl; split; discriminate. Qed.

(** The callback of line 100 on a field node is the typed name test. *)
Lemma find_field_json (fields : list field_node) :
  find (fun x => strict_eq_str (member x "name") "Status") (map field_json fields) =
  option_map field_json (find (field_named "Status") fields).
Proof. rewrite find_map. f_equal. apply find_ext. now intros []. Qed.

Lemma find_option_json (opts : list (string * string)) :
  find (fun x => strict_eq_str (member x "name") "Icebox") (map option_json opts) =
  option_map option_json (find (fun o => String.eqb (snd o) "Icebox") opts).
Proof. rewrite find_map. reflexivity. Qed.

Section Resolve.
Context {W : Type} `{Upstream W}.

Lemma resolve_project_spec cfg (s : rt W) resp w' pid fields :
  serve (world s) (project_query_request cfg) = (Fetched resp, w') ->
  payload resp = BodyJson (project_data pid fields) ->
  resolve_project cfg s = (resolve_spec pid fields, mk_rt w' (sent s ++ [project_query_request cfg])).
Proof.
  intros Hs Hp. unfold resolve_project. unfold bind at 1, fetch. rewrite Hs.
  unfold bind at 1, resp_json, read_json. rewrite Hp. cbn -[find_m has_name].
  erewrite bind_normal by (apply find_m_has_name, field_json_not_nullish).
  rewrite find_field_json. unfold resolve_spec, find_status.
  destruct (find (field_named "Status") fields) as [[fid name opts|]|] eqn:E;
    cbn -[find_m has_name].
  - apply find_some in E as [_ E]. simpl in E. apply String.eqb_eq in E as ->.
    erewrite bind_normal by (apply find_m_has_name, option_json_not_nullish).
    rewrite find_option_json. unfold find_icebox.
    destruct (find (fun o => String.eqb (snd o) "Icebox") opts) as [[oid oname]|] eqn:E2;
      [|reflexivity].
    apply find_some in E2 as [_ E2]. simpl in E2. now apply String.eqb_eq in E2 as ->.
  - apply find_some in E as [_ E]. discriminate.
  - reflexivity.
Qed.
End Resolve.

Section Later.
Context {W : Type} `{Upstream W}.

Lemma add_to_project_ok cfg pm issue contentId (s : rt W) resp w' item :
  get issue "node_id" = Normal contentId ->
  serve (world s) (add_item_request cfg (projectId pm) contentId) = (Fetched resp, w') ->
  payload resp = BodyJson (add_item_data item) ->
  add_to_project cfg pm issue s =
    (Normal (JStr item), mk_rt w' (sent s ++ [add_item_request cfg (projectId pm) contentId])).
Proof.
  intros Hn Hs Hp. unfold add_to_project, bind at 1, lift. rewrite Hn.
  unfold bind at 1, fetch. rewrite Hs. unfold bind, resp_json, read_json. now rewrite Hp.
Qed.

(** A GraphQL error answer ([data: null]) to the add mutation makes
    line 140 read a member of [null]. *)
Lemma add_to_project_errors cfg pm issue contentId (s : rt W) resp w' m :
  get issue "node_id" = Normal contentId ->
  serve (world s) (add_item_request cfg (projectId pm) contentId) = (Fetched resp, w') ->
  payload resp = BodyJson (graphql_errors m) ->
  add_to_project cfg pm issue s =
    (Throw (read_error "null" "addProjectV2ItemById"),
     mk_rt w' (sent s ++ [add_item_request cfg (projectId pm) contentId])).
Proof.
  intros Hn Hs Hp. unfold add_to_project, bind at 1, lift. rewrite Hn.
  unfold bind at 1, fetch. rewrite Hs. unfold bind, resp_json, read_json. now rewrite Hp.
Qed.

(** Whatever the update answers, the stage goes on. *)
Lemma set_status_ok cfg pm itemId fieldId optionId (s : rt W) resp w' :
  get (statusField pm) "id" = Normal fieldId -> get (iceboxOption pm) "id" = Normal optionId ->
  serve (world s) (update_field_request cfg (projectId pm) itemId fieldId optionId)
    = (Fetched resp, w') ->
  set_status cfg pm itemId s =
    (Normal tt,
     mk_rt w' (sent s ++ [update_field_request cfg (projectId pm) itemId fieldId optionId])).
Proof.
  intros Hf Ho Hs. unfold set_status, bind at 1, lift. rewrite Hf.
  unfold bind at 1. rewrite Ho. unfold bind, fetch. now rewrite Hs.
Qed.

(** A rejected update [fetch] throws its [TypeError]. *)
Lemma set_status_rejected cfg pm itemId fieldId optionId (s : rt W) m w' :
  get (statusField pm) "id" = Normal fieldId -> get (iceboxOption pm) "id" = Normal optionId ->
  serve (world s) (update_field_request cfg (projectId pm) itemId fieldId optionId)
    = (Rejected m, w') ->
  set_status cfg pm itemId s =
    (Throw (TypeError m),
     mk_rt w' (sent s ++ [update_field_request cfg (projectId pm) itemId fieldId optionId])).
Proof.
  intros Hf Ho Hs. unfold set_status, bind at 1, lift. rewrite Hf.
  unfold bind at 1. rewrite Ho. unfold bind, fetch. now rewrite Hs.
Qed.

Lemma success_response_ok cfg issue (s : rt W) :
  issue <> JUndefined -> issue <> JNull ->
  success_response cfg issue s =
    (Normal (json_response (success_body cfg (member issue "html_url") (member issue "number")) 201), s).
Proof.
  intros Hu Hn. unfold success_response, bind, lift, ret. now rewrite !get_member.
Qed.
End Later.

#[export] Hint Resolve read_config_ok parse_request_ok create_issue_ok add_to_project_ok
  set_status_ok success_response_ok : gh.

(** ** Which stage a request belongs to *)

Inductive stage : Type := CreateIssue | QueryProject | AddItem | UpdateField.

(** The issue POST goes to a [/repos/] URL; a GraphQL POST is told apart
    by its document. *)
Definition request_stage (r : http_request) : option stage :=
  if starts_with "https://api.github.com/repos/" (url r) then Some CreateIssue
  else if String.eqb (url r) "https://api.github.com/graphql" then
    match member (Runtime.body r) "query" with
    | JStr q =>
        if String.eqb q projectQuery then Some QueryProject
        else if String.eqb q addToProjectMutation then Some AddItem
        else if String.eqb q updateFieldMutation then Some UpdateField
        else None
    | _ => None
    end
  else None.

Lemma request_stage_create cfg r : request_stage (create_issue_request cfg r) = Some CreateIssue.
Proof. reflexivity. Qed.

Lemma request_stage_query cfg : request_stage (project_query_request cfg) = Some QueryProject.
Proof. reflexivity. Qed.

Lemma request_stage_add cfg p c : request_stage (add_item_request cfg p c) = Some AddItem.
Proof. reflexivity. Qed.

Lemma request_stage_update cfg p i f o :
  request_stage (update_field_request cfg p i f o) = Some UpdateField.
Proof. reflexivity. Qed.

Abbreviation nil_s := (@nil (option stage)).

(** [tbind L1 L2]: split the expected trace of a [bind]. *)
Tactic Notation "tbind" constr(L1) constr(L2) :=
  eapply (traces_bind_l _ _ _ L1 L2); [ | intros ? | reflexivity ].

Section Traces.
Context {W : Type} `{Upstream W}.

Lemma fetch_traces r st :
  request_stage r = Some st -> traces request_stage (@fetch W _ r) [Some st].
Proof. intros <-. apply traces_fetch. Qed.

Lemma read_config_traces env : traces request_stage (@read_config W env) [].
Proof. unfold read_config. auto with gh. Qed.

Lemma parse_request_traces req : traces request_stage (@parse_request W req) [].
Proof. unfold parse_request. tbind nil_s nil_s; auto with gh.
  tbind nil_s nil_s; auto with gh. Qed.

Lemma create_issue_traces cfg r : traces request_stage (@create_issue W _ cfg r) [Some CreateIssue].
Proof.
  unfold create_issue. tbind [Some CreateIssue] nil_s.
  - now apply fetch_traces.
  - unfold resp_json. apply traces_if; [|auto with gh].
    tbind nil_s nil_s; auto with gh.
Qed.

Lemma find_m_traces lit xs : traces request_stage (@find_m W (has_name lit) xs) [].
Proof.
  induction xs as [|x xs IH]; simpl; [auto with gh|].
  tbind nil_s nil_s; [|destruct a; auto with gh].
  unfold has_name. tbind nil_s nil_s; auto with gh.
Qed.

Lemma call_find_traces recv callee lit :
  traces request_stage (@call_find W recv callee (has_name lit)) [].
Proof. unfold call_find. destruct recv; auto using find_m_traces with gh. Qed.

Lemma resolve_project_traces cfg : traces request_stage (@resolve_project W _ cfg) [Some QueryProject].
Proof.
  unfold resolve_project. tbind [Some QueryProject] nil_s; [now apply fetch_traces|].
  unfold resp_json. repeat (tbind nil_s nil_s; [auto using call_find_traces with gh|]).
  auto with gh.
Qed.

Lemma add_to_project_traces cfg pm issue :
  traces request_stage (@add_to_project W _ cfg pm issue) [Some AddItem].
Proof.
  unfold add_to_project. tbind nil_s [Some AddItem]; [auto with gh|].
  tbind [Some AddItem] nil_s; [now apply fetch_traces|].
  unfold resp_json. tbind nil_s nil_s; auto with gh.
Qed.

Lemma set_status_traces cfg pm itemId :
  traces request_stage (@set_status W _ cfg pm itemId) [Some UpdateField].
Proof.
  unfold set_status. tbind nil_s [Some UpdateField]; [auto with gh|].
  tbind nil_s [Some UpdateField]; [auto with gh|].
  tbind [Some UpdateField] nil_s; [now apply fetch_traces|auto with gh].
Qed.

Lemma success_response_traces cfg issue :
  traces request_stage (@success_response W cfg issue) [].
Proof. unfold success_response. tbind nil_s nil_s; [auto with gh|]. tbind nil_s nil_s; auto with gh. Qed.

(** The body of the [try] sends the four requests in stage order. *)
Lemma handler_body_traces env req :
  traces request_stage (@handler_body W _ env req)
    [Some CreateIssue; Some QueryProject; Some AddItem; Some UpdateField].
Proof.
  unfold handler_body.
  tbind nil_s [Some CreateIssue; Some QueryProject; Some AddItem; Some UpdateField];
    [apply read_config_traces|].
  tbind nil_s [Some CreateIssue; Some QueryProject; Some AddItem; Some UpdateField];
    [apply parse_request_traces|].
  tbind [Some CreateIssue] [Some QueryProject; Some AddItem; Some UpdateField];
    [apply create_issue_traces|].
  tbind [Some QueryProject] [Some AddItem; Some UpdateField]; [apply resolve_project_traces|].
  tbind [Some AddItem] [Some UpdateField]; [apply add_to_project_traces|].
  tbind [Some UpdateField] nil_s; [apply set_status_traces|apply success_response_traces].
Qed.
End Traces.

End HandlerSpec.
