(* ===== verification/HandlerCorrect.v ===== *)
(** The handler of [index.ts] as a whole, for any [Upstream]: the answer
    and the requests sent on each branch of lines 13-203 (configuration,
    request body, each upstream failure, success), the data that flows
    from one request to the next, the uniform answer of the [catch], the
    order of the requests, and the refinement of the project lookup. *)

From Stdlib Require Import String ZArith List Bool.
From S2P Require Import Prelude JsValue Stringify Runtime Handler GitHubApi HandlerSpec.
Import ListNotations JsValue Stringify Runtime Handler GitHubApi HandlerSpec.
Open Scope string_scope.
Open Scope gh_scope.

Module HandlerCorrect.

Section Branches.
Context {W : Type} `{Upstream W}.

Lemma run_handler_throw env req (w : W) e s' :
  handler_body env req (mk_rt w []) = (Throw e, s') ->
  run_handler env req w = (Normal (error_response e), s').
Proof. intros Hb. unfold run_handler, handler. now rewrite (catch_throw _ _ _ _ _ Hb). Qed.

Lemma run_handler_normal env req (w : W) r s' :
  handler_body env req (mk_rt w []) = (Normal r, s') ->
  run_handler env req w = (Normal r, s').
Proof. intros Hb. unfold run_handler, handler. now rewrite (catch_normal _ _ _ _ _ Hb). Qed.

(** C2: configuration incomplete.  When one of [GITHUB_TOKEN],
    [GITHUB_OWNER], [GITHUB_REPO] is unset or empty, the handler answers
    400 with "Required environment variables are not set", sends no
    request and leaves the upstream untouched. *)
Theorem handler_config_missing env req (w : W) k :
  In k ["GITHUB_TOKEN"; "GITHUB_OWNER"; "GITHUB_REPO"] -> ~ present env k ->
  run_handler env req w =
    (Normal (error_response (Error "Required environment variables are not set")), mk_rt w []).
Proof.
  intros Hk Hp. apply run_handler_throw. unfold handler_body.
  step read_config_missing. reflexivity.
Qed.

(** C3: missing title.  With the configuration present, a request body
    that is an object (or any non-nullish value) whose [title] is falsy
    ([undefined], [null], [""], [false], [0]) is answered 400 with "Issue
    title is required", and no request is sent. *)
Theorem handler_title_missing env v (w : W) :
  config_present env -> v <> JUndefined -> v <> JNull -> truthy (member v "title") = false ->
  run_handler env (BodyJson v) w =
    (Normal (error_response (Error "Issue title is required")), mk_rt w []).
Proof.
  intros Hc Hu Hn Ht. apply run_handler_throw. unfold handler_body.
  step read_config_ok. step parse_request_no_title. reflexivity.
Qed.

(** C4: the issue creation fails upstream.  When GitHub answers the
    issue POST with a non-2xx status, the handler answers 400 with
    "GitHub API error: " followed by the JSON of the error payload (or
    the [SyntaxError] of a payload that is not JSON), and the POST is the
    only request sent: no project call is attempted. *)
Theorem handler_create_failed env v (w w1 : W) resp :
  config_present env -> titled v ->
  serve w (create_issue_request (env_config env) (issue_request_of v)) = (Fetched resp, w1) ->
  ok resp = false ->
  run_handler env (BodyJson v) w =
    (Normal (error_response
               (match payload resp with
                | BodyJson error => Error ("GitHub API error: " ++ template_stringify error)
                | BodyInvalid m => SyntaxError m
                end)),
     mk_rt w1 [create_issue_request (env_config env) (issue_request_of v)]).
Proof.
  intros Hc Ht Hs Hok. apply run_handler_throw. unfold handler_body.
  step read_config_ok. step parse_request_ok. step create_issue_failed. reflexivity.
Qed.

(** The run up to the project lookup, when the lookup fails. *)
Lemma handler_body_unresolved env v (w w1 w2 : W) r1 r2 issue pid fields e :
  config_present env -> titled v ->
  serve w (create_issue_request (env_config env) (issue_request_of v)) = (Fetched r1, w1) ->
  ok r1 = true -> payload r1 = BodyJson issue ->
  serve w1 (project_query_request (env_config env)) = (Fetched r2, w2) ->
  payload r2 = BodyJson (project_data pid fields) ->
  resolve_spec pid fields = Throw e ->
  handler_body env (BodyJson v) (mk_rt w []) =
    (Throw e, mk_rt w2 [create_issue_request (env_config env) (issue_request_of v);
                        project_query_request (env_config env)]).
Proof.
  intros Hc Ht Hs1 Hok Hp1 Hs2 Hp2 He. unfold handler_body.
  step read_config_ok. step parse_request_ok. step create_issue_ok.
  erewrite bind_throw; [reflexivity|]. erewrite resolve_project_spec by eauto.
  now rewrite He.
Qed.

(** C5: no "Status" field.  When the project has no single-select field
    named "Status", the handler fails on line 102 with the [TypeError]
    "Cannot read properties of undefined (reading 'options')", before
    its own not-found test of line 106 runs; only the issue POST and the
    project query were sent, so the issue exists but is not filed. *)
Theorem handler_status_missing env v (w w1 w2 : W) r1 r2 issue pid fields :
  config_present env -> titled v ->
  serve w (create_issue_request (env_config env) (issue_request_of v)) = (Fetched r1, w1) ->
  ok r1 = true -> payload r1 = BodyJson issue ->
  serve w1 (project_query_request (env_config env)) = (Fetched r2, w2) ->
  payload r2 = BodyJson (project_data pid fields) ->
  find_status fields = None ->
  run_handler env (BodyJson v) w =
    (Normal (error_response (TypeError "Cannot read properties of undefined (reading 'options')")),
     mk_rt w2 [create_issue_request (env_config env) (issue_request_of v);
               project_query_request (env_config env)]).
Proof.
  intros Hc Ht Hs1 Hok Hp1 Hs2 Hp2 Hf. apply run_handler_throw.
  eapply handler_body_unresolved; eauto. unfold resolve_spec. now rewrite Hf.
Qed.

(** C6: no "Icebox" option.  When the first "Status" field has no option
    named "Icebox", the handler answers 400 with "Status field or Icebox
    option not found in the project" after the issue POST and the
    project query, and sends neither mutation. *)
Theorem handler_icebox_missing env v (w w1 w2 : W) r1 r2 issue pid fields fid opts :
  config_present env -> titled v ->
  serve w (create_issue_request (env_config env) (issue_request_of v)) = (Fetched r1, w1) ->
  ok r1 = true -> payload r1 = BodyJson issue ->
  serve w1 (project_query_request (env_config env)) = (Fetched r2, w2) ->
  payload r2 = BodyJson (project_data pid fields) ->
  find_status fields = Some (fid, opts) -> find_icebox opts = None ->
  run_handler env (BodyJson v) w =
    (Normal (error_response (Error "Status field or Icebox option not found in the project")),
     mk_rt w2 [create_issue_request (env_config env) (issue_request_of v);
               project_query_request (env_config env)]).
Proof.
  intros Hc Ht Hs1 Hok Hp1 Hs2 Hp2 Hf Hi. apply run_handler_throw.
  eapply handler_body_unresolved; eauto. unfold resolve_spec. now rewrite Hf, Hi.
Qed.
Lemma resolve_spec_found pid fields fid opts oid :
  find_status fields = Some (fid, opts) -> find_icebox opts = Some oid ->
  resolve_spec pid fields =
    Normal (mk_project_meta (JStr pid) (field_json (SingleSelect fid "Status" opts))
                            (option_json (oid, "Icebox"))).
Proof. intros Hf Hi. unfold resolve_spec. now rewrite Hf, Hi. Qed.

(** C7: the success path.  When GitHub creates the issue, the project
    has a "Status" field with an "Icebox" option, and the item is added,
    the handler sends exactly four requests, in this order: the issue
    POST built from the request's [title], [body], [labels]; the project
    query for the configured owner and project 1; the add mutation for
    the project id and the created issue's [node_id]; the update
    mutation for that project, the new item id, the Status field id and
    the Icebox option id.  It answers 201 with the issue's [html_url] and
    [number] and the project URL, whatever the update mutation answers
    (its response is never read). *)
Theorem handler_success env v (w w1 w2 w3 w4 : W) r1 r2 r3 r4
        nid url num pid fields fid opts oid item :
  config_present env -> titled v ->
  serve w (create_issue_request (env_config env) (issue_request_of v)) = (Fetched r1, w1) ->
  ok r1 = true -> payload r1 = BodyJson (issue_json nid url num) ->
  serve w1 (project_query_request (env_config env)) = (Fetched r2, w2) ->
  payload r2 = BodyJson (project_data pid fields) ->
  find_status fields = Some (fid, opts) -> find_icebox opts = Some oid ->
  serve w2 (add_item_request (env_config env) (JStr pid) (JStr nid)) = (Fetched r3, w3) ->
  payload r3 = BodyJson (add_item_data item) ->
  serve w3 (update_field_request (env_config env) (JStr pid) (JStr item) (JStr fid) (JStr oid))
    = (Fetched r4, w4) ->
  run_handler env (BodyJson v) w =
    (Normal (json_response (success_body (env_config env) (JStr url) (JNum num)) 201),
     mk_rt w4 [create_issue_request (env_config env) (issue_request_of v);
               project_query_request (env_config env);
               add_item_request (env_config env) (JStr pid) (JStr nid);
               update_field_request (env_config env) (JStr pid) (JStr item) (JStr fid) (JStr oid)]).
Proof.
  intros Hc Ht Hs1 Hok Hp1 Hs2 Hp2 Hf Hi Hs3 Hp3 Hs4. apply run_handler_normal.
  unfold handler_body. step read_config_ok. step parse_request_ok. step create_issue_ok.
  erewrite bind_normal by (erewrite resolve_project_spec by eauto;
                           now rewrite (resolve_spec_found _ _ _ _ _ Hf Hi)).
  erewrite bind_normal by (eapply add_to_project_ok; [reflexivity|eassumption..]).
  erewrite bind_normal by (eapply set_status_ok; [reflexivity..|eassumption]).
  rewrite success_response_ok by discriminate. reflexivity.
Qed.

(** C8: no rollback.  When the add mutation fails (GitHub answers with
    [data: null]), the handler answers 400 with the [TypeError] of line
    140; the three requests sent are the issue POST, the project query
    and the add mutation, and no request undoes the issue already
    created. *)
Theorem handler_add_failed env v (w w1 w2 w3 : W) r1 r2 r3
        nid url num pid fields fid opts oid m :
  config_present env -> titled v ->
  serve w (create_issue_request (env_config env) (issue_request_of v)) = (Fetched r1, w1) ->
  ok r1 = true -> payload r1 = BodyJson (issue_json nid url num) ->
  serve w1 (project_query_request (env_config env)) = (Fetched r2, w2) ->
  payload r2 = BodyJson (project_data pid fields) ->
  find_status fields = Some (fid, opts) -> find_icebox opts = Some oid ->
  serve w2 (add_item_request (env_config env) (JStr pid) (JStr nid)) = (Fetched r3, w3) ->
  payload r3 = BodyJson (graphql_errors m) ->
  run_handler env (BodyJson v) w =
    (Normal (error_response (TypeError "Cannot read properties of null (reading 'addProjectV2ItemById')")),
     mk_rt w3 [create_issue_request (env_config env) (issue_request_of v);
               project_query_request (env_config env);
               add_item_request (env_config env) (JStr pid) (JStr nid)]).
Proof.
  intros Hc Ht Hs1 Hok Hp1 Hs2 Hp2 Hf Hi Hs3 Hp3. apply run_handler_throw.
  unfold handler_body. step read_config_ok. step parse_request_ok. step create_issue_ok.
  erewrite bind_normal by (erewrite resolve_project_spec by eauto;
                           now rewrite (resolve_spec_found _ _ _ _ _ Hf Hi)).
  erewrite bind_throw by (eapply add_to_project_errors; [reflexivity|eassumption..]).
  reflexivity.
Qed.

(** C15: unreadable requests.  With the configuration present, a request
    body that is not JSON is answered 400 with the [SyntaxError] of
    [req.json()] (line 26), and the body [null] with the [TypeError] of
    the destructuring [const { title, body, labels } = null]; in both
    cases no request is sent and the upstream is untouched. *)
Theorem handler_unreadable_request env (w : W) m :
  config_present env ->
  run_handler env (BodyInvalid m) w = (Normal (error_response (SyntaxError m)), mk_rt w []) /\
  run_handler env (BodyJson JNull) w =
    (Normal (error_response
               (TypeError "Cannot destructure property 'title' of '(intermediate value)' as it is null.")),
     mk_rt w []).
Proof.
  intros Hc. split; apply run_handler_throw; unfold handler_body; step read_config_ok;
    [step parse_request_invalid|step parse_request_null]; reflexivity.
Qed.

(** C14: a network failure on the last request.  When the issue is
    created, the Status field and Icebox option are found, the item is
    added and then the update [fetch] itself rejects, the handler answers
    400 with that [TypeError]'s message, although the issue exists and
    is on the board (without a status): all four requests were sent. *)
Theorem handler_update_rejected env v (w w1 w2 w3 w4 : W) r1 r2 r3
        nid url num pid fields fid opts oid item m :
  config_present env -> titled v ->
  serve w (create_issue_request (env_config env) (issue_request_of v)) = (Fetched r1, w1) ->
  ok r1 = true -> payload r1 = BodyJson (issue_json nid url num) ->
  serve w1 (project_query_request (env_config env)) = (Fetched r2, w2) ->
  payload r2 = BodyJson (project_data pid fields) ->
  find_status fields = Some (fid, opts) -> find_icebox opts = Some oid ->
  serve w2 (add_item_request (env_config env) (JStr pid) (JStr nid)) = (Fetched r3, w3) ->
  payload r3 = BodyJson (add_item_data item) ->
  serve w3 (update_field_request (env_config env) (JStr pid) (JStr item) (JStr fid) (JStr oid))
    = (Rejected m, w4) ->
  run_handler env (BodyJson v) w =
    (Normal (error_response (TypeError m)),
     mk_rt w4 [create_issue_request (env_config env) (issue_request_of v);
               project_query_request (env_config env);
               add_item_request (env_config env) (JStr pid) (JStr nid);
               update_field_request (env_config env) (JStr pid) (JStr item) (JStr fid) (JStr oid)]).
Proof.
  intros Hc Ht Hs1 Hok Hp1 Hs2 Hp2 Hf Hi Hs3 Hp3 Hs4. apply run_handler_throw.
  unfold handler_body. step read_config_ok. step parse_request_ok. step create_issue_ok.
  erewrite bind_normal by (erewrite resolve_project_spec by eauto;
                           now rewrite (resolve_spec_found _ _ _ _ _ Hf Hi)).
  erewrite bind_normal by (eapply add_to_project_ok; [reflexivity|eassumption..]).
  erewrite bind_throw by (eapply set_status_rejected; [reflexivity..|eassumption]).
  reflexivity.
Qed.
End Branches.

Section Whole.
Context {W : Type} `{Upstream W}.

Lemma read_config_returns env : returns_only (@read_config W env) (eq (env_config env)).
Proof.
  intros s a s'. unfold read_config. destruct (_ || _); [discriminate|]. now intros [= <- _].
Qed.

(** A normal end of the [try] is the 201 answer of lines 177-190. *)
Lemma handler_body_returns env req :
  returns_only (@handler_body W _ env req)
    (fun r => exists u n, r = json_response (success_body (env_config env) u n) 201).
Proof.
  unfold handler_body. eapply returns_only_bind_post; [apply read_config_returns|].
  intros cfg <-. repeat (apply returns_only_bind; intros). apply returns_only_ret. eauto.
Qed.

(** C1: one uniform answer.  For every environment, request and
    upstream, the handler returns (no exception escapes the [catch]) a
    JSON response with a body: either 201 with
    [{"success":true,"data":{...}}] or 400 with
    [{"success":false,"error":...}]. *)
Theorem handler_uniform_answer env req (w : W) :
  exists resp s', run_handler env req w = (Normal resp, s') /\ res_body resp <> None /\
    ((exists u n, resp = json_response (success_body (env_config env) u n) 201) \/
     (exists e, resp = error_response e)).
Proof.
  unfold run_handler, handler, catch.
  destruct (handler_body env req (mk_rt w [])) as [[r|e] s'] eqn:E.
  - destruct (handler_body_returns env req _ _ _ E) as (u & n & ->).
    exists (json_response (success_body (env_config env) u n) 201), s'.
    split; [reflexivity|split; [discriminate|eauto]].
  - exists (error_response e), s'. split; [reflexivity|split; [discriminate|eauto]].
Qed.

(** C9: the order of the requests.  Whatever the environment, the
    request and the upstream's answers, the requests the handler sends
    are, in order, a prefix of: the issue POST, the project query, the
    add mutation, the update mutation; each is sent at most once and
    none is sent before the one it depends on. *)
Theorem handler_request_order env req (w : W) :
  prefix (map request_stage (sent (snd (run_handler env req w))))
    [Some CreateIssue; Some QueryProject; Some AddItem; Some UpdateField].
Proof.
  unfold run_handler, handler.
  destruct (traces_catch request_stage _ _ _ (handler_body_traces env req)
              (fun e => traces_ret request_stage (error_response e)) (mk_rt w []))
    as (added & -> & Hp).
  exact Hp.
Qed.
End Whole.

Section Components.
Context {W : Type} `{Upstream W}.

(** C10: refinement of the project lookup (lines 80-108).  On a project
    answer of GitHub's shape, [resolve_project] returns the project id,
    the Status field whose [id] is the one the typed lookup [find_status]
    finds (the first single-select field named "Status") and the option
    whose [id] is the one [find_icebox] finds (its first option named
    "Icebox"); when the typed lookup finds nothing, it throws, and in both
    cases it has sent exactly the project query. *)
Theorem resolve_project_refines cfg (s : rt W) resp w' pid fields :
  serve (world s) (project_query_request cfg) = (Fetched resp, w') ->
  payload resp = BodyJson (project_data pid fields) ->
  snd (resolve_project cfg s) = mk_rt w' (sent s ++ [project_query_request cfg]) /\
  match find_status fields, option_map (fun fo => find_icebox (snd fo)) (find_status fields) with
  | Some (fid, _), Some (Some oid) =>
      exists pm, fst (resolve_project cfg s) = Normal pm /\ projectId pm = JStr pid /\
                 get (statusField pm) "id" = Normal (JStr fid) /\
                 get (iceboxOption pm) "id" = Normal (JStr oid)
  | _, _ => exists e, fst (resolve_project cfg s) = Throw e
  end.
Proof.
  intros Hs Hp. rewrite (resolve_project_spec cfg s resp w' pid fields Hs Hp). split; [reflexivity|].
  unfold resolve_spec. destruct (find_status fields) as [[fid opts]|]; simpl; [|eauto].
  destruct (find_icebox opts) as [oid|]; simpl; eauto 6.
Qed.

End Components.

End HandlerCorrect.
