(* ===== verification/GitHubModel.v ===== *)
(** A cooperating GitHub, as spec section 6 describes the collaborator:
    a repository whose issues are numbered from 1, one organization
    project with its single-select fields, the project's items and their
    field values, and which issues are closed or deleted.  It answers the
    four requests of the handler (REST issue creation, the project query,
    [addProjectV2ItemById], [updateProjectV2ItemFieldValue]) and the two a
    compensating client would send (REST [PATCH] of an issue's [state],
    the GraphQL [deleteIssue] mutation), so that a run that undoes its
    issue is told apart from one that does not.  It is an instance of
    [Upstream], so the handler runs on it.  It is a model of the environment, not of the
    repository's code. *)

From Stdlib Require Import String ZArith List Bool Lia.
From S2P Require Import Prelude JsValue Runtime Handler GitHubApi.
Import ListNotations JsValue Runtime Handler GitHubApi.
Open Scope string_scope.

Module GitHubModel.

(** An issue as stored: its number and the fields of the POST body. *)
Record issue_rec : Type := mk_issue {
  issue_number : Z;
  issue_title : string;
  issue_body : jsval;
  issue_labels : jsval
}.

Record gh_world : Type := mk_world {
  gh_owner : string;
  gh_repo : string;
  gh_token : string;
  gh_project_number : Z;
  gh_project_id : string;
  gh_fields : list field_node;
  gh_issues : list issue_rec;                  (** in creation order *)
  gh_items : list (string * string);           (** item id, content node id *)
  gh_values : list (string * string * string); (** item id, field id, option id *)
  gh_closed : list Z;                          (** numbers of the closed issues *)
  gh_deleted : list Z                          (** numbers of the deleted issues *)
}.

(** The number the next issue gets. *)
Definition next_number (w : gh_world) : Z := Z.of_nat (length (gh_issues w)) + 1.

Definition node_of (n : Z) : string := "I_" ++ number_to_string n.

Definition issues_url (w : gh_world) : string :=
  "https://api.github.com/repos/" ++ gh_owner w ++ "/" ++ gh_repo w ++ "/issues".

Definition html_url_of (w : gh_world) (n : Z) : string :=
  "https://github.com/" ++ gh_owner w ++ "/" ++ gh_repo w ++ "/issues/" ++ number_to_string n.

Definition item_of (k : nat) : string := "PVTI_" ++ number_to_string (Z.of_nat k).

Fixpoint header (k : string) (hs : list (string * string)) : option string :=
  match hs with
  | [] => None
  | (k', v) :: hs' => if String.eqb k k' then Some v else header k hs'
  end.

Definition authorized (w : gh_world) (r : http_request) : bool :=
  match header "Authorization" (headers r) with
  | Some h => String.eqb h ("Bearer " ++ gh_token w)
  | None => false
  end.

Definition answer (st : Z) (v : jsval) : fetch_result := Fetched (mk_response st (BodyJson v)).

Definition rest_error (st : Z) (m : string) : fetch_result := answer st (JObj [("message", JStr m)]).

(** The world with one more issue, item or field value. *)
Definition add_issue (w : gh_world) (i : issue_rec) : gh_world :=
  mk_world (gh_owner w) (gh_repo w) (gh_token w) (gh_project_number w) (gh_project_id w)
           (gh_fields w) (gh_issues w ++ [i]) (gh_items w) (gh_values w) (gh_closed w) (gh_deleted w).

Definition add_item (w : gh_world) (it : string * string) : gh_world :=
  mk_world (gh_owner w) (gh_repo w) (gh_token w) (gh_project_number w) (gh_project_id w)
           (gh_fields w) (gh_issues w) (gh_items w ++ [it]) (gh_values w) (gh_closed w) (gh_deleted w).

(** A field value replaces the item's previous value of that field. *)
Definition set_value (w : gh_world) (item fid oid : string) : gh_world :=
  mk_world (gh_owner w) (gh_repo w) (gh_token w) (gh_project_number w) (gh_project_id w)
           (gh_fields w) (gh_issues w) (gh_items w)
           (filter (fun v => negb (String.eqb (fst (fst v)) item && String.eqb (snd (fst v)) fid))
                   (gh_values w) ++ [(item, fid, oid)]) (gh_closed w) (gh_deleted w).

(** Closing, reopening and deleting issue [n]; GitHub never reuses the
    number of a deleted issue, so it stays in [gh_issues]. *)
Definition set_closed (w : gh_world) (closed : list Z) : gh_world :=
  mk_world (gh_owner w) (gh_repo w) (gh_token w) (gh_project_number w) (gh_project_id w)
           (gh_fields w) (gh_issues w) (gh_items w) (gh_values w) closed (gh_deleted w).

Definition close_issue (w : gh_world) (n : Z) : gh_world :=
  set_closed w (n :: filter (fun k => negb (Z.eqb k n)) (gh_closed w)).

Definition reopen_issue (w : gh_world) (n : Z) : gh_world :=
  set_closed w (filter (fun k => negb (Z.eqb k n)) (gh_closed w)).

Definition delete_issue (w : gh_world) (n : Z) : gh_world :=
  mk_world (gh_owner w) (gh_repo w) (gh_token w) (gh_project_number w) (gh_project_id w)
           (gh_fields w) (gh_issues w) (gh_items w) (gh_values w) (gh_closed w)
           (n :: gh_deleted w).

Definition is_deleted (w : gh_world) (n : Z) : bool := existsb (Z.eqb n) (gh_deleted w).

(** Issue [n] exists, is not deleted and is not closed. *)
Definition issue_open (w : gh_world) (n : Z) : bool :=
  existsb (fun i => Z.eqb (issue_number i) n) (gh_issues w) && negb (is_deleted w n)
  && negb (existsb (Z.eqb n) (gh_closed w)).

(** POST /repos/{owner}/{repo}/issues: a non-empty string title is
    required. *)
Definition gh_create (w : gh_world) (r : http_request) : fetch_result * gh_world :=
  match member (Runtime.body r) "title" with
  | JStr t =>
      if String.eqb t "" then (rest_error 422 "Validation Failed", w)
      else
        let n := next_number w in
        (answer 201 (issue_json (node_of n) (html_url_of w n) n),
         add_issue w (mk_issue n t (member (Runtime.body r) "body") (member (Runtime.body r) "labels")))
  | _ => (rest_error 422 "Validation Failed", w)
  end.

Definition has_issue_node (w : gh_world) (c : string) : bool :=
  existsb (fun i => String.eqb (node_of (issue_number i)) c) (gh_issues w).

Definition has_item (w : gh_world) (it : string) : bool :=
  existsb (fun x => String.eqb (fst x) it) (gh_items w).

Definition field_has_option (fields : list field_node) (fid oid : string) : bool :=
  existsb (fun f => match f with
                    | SingleSelect f' _ opts =>
                        String.eqb f' fid && existsb (fun o => String.eqb (fst o) oid) opts
                    | OtherField => false
                    end) fields.

(** The live issue whose URL is [u] ([/repos/{owner}/{repo}/issues/{n}]). *)
Definition issue_at_url (w : gh_world) (u : string) : option issue_rec :=
  find (fun i => String.eqb u (issues_url w ++ "/" ++ number_to_string (issue_number i))
                 && negb (is_deleted w (issue_number i))) (gh_issues w).

(** PATCH /repos/{owner}/{repo}/issues/{n}: [state] "closed" closes the
    issue and "open" reopens it. *)
Definition gh_patch (w : gh_world) (i : issue_rec) (r : http_request) : fetch_result * gh_world :=
  let n := issue_number i in
  let a := answer 200 (issue_json (node_of n) (html_url_of w n) n) in
  if String.eqb (method r) "PATCH" then
    match member (Runtime.body r) "state" with
    | JStr "closed" => (a, close_issue w n)
    | JStr "open" => (a, reopen_issue w n)
    | _ => (a, w)
    end
  else (rest_error 404 "Not Found", w).

Definition str_of (v : jsval) : option string := match v with JStr s => Some s | _ => None end.

(** The GraphQL endpoint, told apart by the document; a request it
    cannot resolve gets [data: null] with an error. *)
Definition gh_graphql (w : gh_world) (r : http_request) : fetch_result * gh_world :=
  let q := member (Runtime.body r) "query" in
  let vars := member (Runtime.body r) "variables" in
  if strict_eq_str q projectQuery then
    match str_of (member vars "owner"), member vars "number" with
    | Some o, JNum k =>
        if String.eqb o (gh_owner w) && Z.eqb k (gh_project_number w)
        then (answer 200 (project_data (gh_project_id w) (gh_fields w)), w)
        else (answer 200 (graphql_errors "Could not resolve to a ProjectV2"), w)
    | _, _ => (answer 200 (graphql_errors "Variable $number is invalid"), w)
    end
  else if strict_eq_str q addToProjectMutation then
    match str_of (member vars "projectId"), str_of (member vars "contentId") with
    | Some p, Some c =>
        if String.eqb p (gh_project_id w) && has_issue_node w c then
          let it := item_of (S (length (gh_items w))) in
          (answer 200 (add_item_data it), add_item w (it, c))
        else (answer 200 (graphql_errors "Could not resolve to a node"), w)
    | _, _ => (answer 200 (graphql_errors "Variable is invalid"), w)
    end
  else if strict_eq_str q updateFieldMutation then
    match str_of (member vars "projectId"), str_of (member vars "itemId"),
          str_of (member vars "fieldId"), str_of (member vars "optionId") with
    | Some p, Some it, Some f, Some o =>
        if String.eqb p (gh_project_id w) && has_item w it && field_has_option (gh_fields w) f o then
          (answer 200 (JObj [("data", JObj [("updateProjectV2ItemFieldValue",
                               JObj [("projectV2Item", JObj [("id", JStr it)])])])]),
           set_value w it f o)
        else (answer 200 (graphql_errors "Could not resolve to a node"), w)
    | _, _, _, _ => (answer 200 (graphql_errors "Variable is invalid"), w)
    end
  else if contains "deleteIssue" (js_to_string q) then
    match str_of (member vars "issueId") with
    | Some c =>
        match find (fun i => String.eqb (node_of (issue_number i)) c
                             && negb (is_deleted w (issue_number i))) (gh_issues w) with
        | Some i => (answer 200 (JObj [("data", JObj [("deleteIssue",
                                  JObj [("clientMutationId", JNull)])])]),
                     delete_issue w (issue_number i))
        | None => (answer 200 (graphql_errors "Could not resolve to a node"), w)
        end
    | None => (answer 200 (graphql_errors "Variable is invalid"), w)
    end
  else (answer 200 (graphql_errors "Unknown document"), w).

Definition gh_serve (w : gh_world) (r : http_request) : fetch_result * gh_world :=
  if negb (authorized w r) then (rest_error 401 "Bad credentials", w)
  else if String.eqb (url r) (issues_url w) then
    if String.eqb (method r) "POST" then gh_create w r else (rest_error 404 "Not Found", w)
  else if String.eqb (url r) "https://api.github.com/graphql" then gh_graphql w r
  else match issue_at_url w (url r) with
       | Some i => gh_patch w i r
       | None => (rest_error 404 "Not Found", w)
       end.

#[export] Instance github : Upstream gh_world := { serve := gh_serve }.

End GitHubModel.
