(* ===== verification/GitHubRefine.v ===== *)
(** The handler of [index.ts] running against the cooperating GitHub of
    [GitHubModel]: how GitHub answers each of the four requests, and the
    refinement theorems.  A run creates exactly one issue and files it in
    the project as Icebox; a run that fails after the creation leaves the
    world exactly as the creation left it (no compensating close or
    delete); and over any sequence of requests on a board with Status and
    Icebox, every issue of the repository stays filed as Icebox. *)

From Stdlib Require Import String ZArith List Bool Lia.
From S2P Require Import Prelude JsValue Stringify Runtime Handler GitHubApi HandlerSpec HandlerCorrect GitHubModel.
Import ListNotations JsValue Stringify Runtime Handler GitHubApi HandlerSpec HandlerCorrect GitHubModel.
Open Scope string_scope.
Open Scope gh_scope.
Open Scope list_scope.

Module GitHubRefine.

(** The deployment: the function's environment names this world's
    repository, owner and token, and the board is project 1. *)
Definition deployed (env : string -> option string) (w : gh_world) : Prop :=
  env "GITHUB_TOKEN" = Some (gh_token w) /\ env "GITHUB_OWNER" = Some (gh_owner w) /\
  env "GITHUB_REPO" = Some (gh_repo w) /\ gh_token w <> "" /\ gh_owner w <> "" /\
  gh_repo w <> "" /\ gh_project_number w = PROJECT_NUMBER.

(** The configuration the deployed handler reads. *)
Definition cfg_of (w : gh_world) : config :=
  mk_config (JStr (gh_token w)) (JStr (gh_owner w)) (JStr (gh_repo w)).

(** The deployment only depends on the repository's coordinates. *)
Definition same_repo (w w' : gh_world) : Prop :=
  gh_owner w' = gh_owner w /\ gh_repo w' = gh_repo w /\ gh_token w' = gh_token w /\
  gh_project_number w' = gh_project_number w /\ gh_project_id w' = gh_project_id w /\
  gh_fields w' = gh_fields w.

Lemma deployed_same_repo env w w' : deployed env w -> same_repo w w' -> deployed env w'.
Proof.
  intros (Ht & Ho & Hr & Ht' & Ho' & Hr' & Hn) (Eo & Er & Et & En & _).
  unfold deployed. rewrite Eo, Er, Et, En. tauto.
Qed.

Lemma deployed_config_present env w : deployed env w -> config_present env.
Proof.
  intros (Ht & Ho & Hr & Ht' & Ho' & Hr' & _).
  repeat split; eexists; split; eassumption.
Qed.

Lemma deployed_config env w : deployed env w -> env_config env = cfg_of w.
Proof. intros (Ht & Ho & Hr & _). unfold env_config, env_get. now rewrite Ht, Ho, Hr. Qed.

(** Every request of the handler carries the world's bearer token. *)
Lemma authorized_graphql w q vars :
  authorized w (graphql_request (cfg_of w)
                  q vars) = true.
Proof. unfold authorized. simpl. apply String.eqb_refl. Qed.

Lemma gh_serve_create w r t :
  title r = JStr t -> t <> "" ->
  gh_serve w (create_issue_request (cfg_of w) r)
  = (answer 201 (issue_json (node_of (next_number w)) (html_url_of w (next_number w)) (next_number w)),
     add_issue w (mk_issue (next_number w) t (body r) (labels r))).
Proof.
  intros Ht Hne. unfold gh_serve, authorized. simpl. rewrite !String.eqb_refl. simpl.
  unfold gh_create. simpl. rewrite Ht.
  apply String.eqb_neq in Hne. now rewrite Hne.
Qed.

Lemma gh_serve_query w :
  gh_project_number w = PROJECT_NUMBER ->
  gh_serve w (project_query_request (cfg_of w)) =
    (answer 200 (project_data (gh_project_id w) (gh_fields w)), w).
Proof.
  intros Hn. unfold gh_serve, project_query_request. rewrite authorized_graphql. simpl.
  unfold gh_graphql. simpl. rewrite String.eqb_refl, Hn. reflexivity.
Qed.

Lemma gh_serve_add w nid :
  has_issue_node w nid = true ->
  gh_serve w (add_item_request (cfg_of w) (JStr (gh_project_id w)) (JStr nid)) =
    (answer 200 (add_item_data (item_of (S (length (gh_items w))))),
     add_item w (item_of (S (length (gh_items w))), nid)).
Proof.
  intros Hi. unfold gh_serve, add_item_request. rewrite authorized_graphql. simpl.
  unfold gh_graphql. simpl. now rewrite String.eqb_refl, Hi.
Qed.

Lemma gh_serve_update w it fid oid :
  has_item w it = true -> field_has_option (gh_fields w) fid oid = true ->
  gh_serve w (update_field_request (cfg_of w) (JStr (gh_project_id w)) (JStr it) (JStr fid) (JStr oid)) =
    (answer 200 (JObj [("data", JObj [("updateProjectV2ItemFieldValue",
                         JObj [("projectV2Item", JObj [("id", JStr it)])])])]),
     set_value w it fid oid).
Proof.
  intros Hi Hf. unfold gh_serve, update_field_request. rewrite authorized_graphql. simpl.
  unfold gh_graphql. simpl. now rewrite String.eqb_refl, Hi, Hf.
Qed.

Lemma has_issue_node_added w n t b l :
  has_issue_node (add_issue w (mk_issue n t b l)) (node_of n) = true.
Proof. unfold has_issue_node. simpl. rewrite existsb_app. simpl. now rewrite String.eqb_refl, orb_true_r. Qed.

Lemma has_item_added w it c : has_item (add_item w (it, c)) it = true.
Proof. unfold has_item. simpl. rewrite existsb_app. simpl. now rewrite String.eqb_refl, orb_true_r. Qed.

(** The ids the typed lookup finds name a field and one of its options. *)
Lemma field_has_option_found fields fid opts oid :
  find_status fields = Some (fid, opts) -> find_icebox opts = Some oid ->
  field_has_option fields fid oid = true.
Proof.
  unfold find_status, find_icebox. intros Hf Hi.
  destruct (find (field_named "Status") fields) as [[f n os|]|] eqn:E; try discriminate.
  injection Hf as -> ->. apply find_some in E as [Hin _].
  destruct (find (fun o => String.eqb (snd o) "Icebox") opts) as [[o on]|] eqn:E2; try discriminate.
  injection Hi as ->. apply find_some in E2 as [Hin2 _].
  apply existsb_exists. exists (SingleSelect fid n opts). split; [exact Hin|].
  rewrite String.eqb_refl. simpl. apply existsb_exists. exists (oid, on).
  split; [exact Hin2|apply String.eqb_refl].
Qed.

(** The world after a successful run: the new issue, its project item,
    and the item's Status value. *)
Definition filed (w : gh_world) (i : issue_rec) (fid oid : string) : gh_world :=
  let it := item_of (S (length (gh_items w))) in
  set_value (add_item (add_issue w i) (it, node_of (issue_number i))) it fid oid.

(** A titled request whose title is a non-empty string. *)
Definition string_titled (v : jsval) (t : string) : Prop :=
  v <> JUndefined /\ v <> JNull /\ member v "title" = JStr t /\ t <> "".

Lemma string_titled_titled v t : string_titled v t -> titled v.
Proof.
  intros (Hu & Hn & Ht & Hne). repeat split; auto. rewrite Ht. simpl.
  apply String.eqb_neq in Hne. now rewrite Hne.
Qed.

(** The whole successful run on the model. *)
Lemma github_run_success env v w t fid opts oid :
  deployed env w -> string_titled v t ->
  find_status (gh_fields w) = Some (fid, opts) -> find_icebox opts = Some oid ->
  run_handler env (BodyJson v) w =
    (Normal (json_response (success_body (cfg_of w) (JStr (html_url_of w (next_number w)))
                                         (JNum (next_number w))) 201),
     mk_rt (filed w (mk_issue (next_number w) t (member v "body") (member v "labels")) fid oid)
       [create_issue_request (cfg_of w) (issue_request_of v); project_query_request (cfg_of w);
        add_item_request (cfg_of w) (JStr (gh_project_id w)) (JStr (node_of (next_number w)));
        update_field_request (cfg_of w) (JStr (gh_project_id w))
          (JStr (item_of (S (length (gh_items w))))) (JStr fid) (JStr oid)]).
Proof.
  intros Hd Hv Hf Hi. pose proof (string_titled_titled v t Hv) as Ht.
  pose proof (deployed_config_present env w Hd) as Hc. pose proof (deployed_config env w Hd) as Hcfg.
  destruct Hv as (_ & _ & Htitle & Hne). destruct Hd as (_ & _ & _ & _ & _ & _ & Hn).
  apply run_handler_normal. unfold handler_body.
  step read_config_ok. rewrite Hcfg.
  step parse_request_ok.
  erewrite bind_normal by (eapply create_issue_ok;
    [exact (gh_serve_create w (issue_request_of v) t Htitle Hne)|reflexivity|reflexivity]).
  erewrite bind_normal by (erewrite resolve_project_spec;
    [now rewrite (resolve_spec_found _ _ _ _ _ Hf Hi)|exact (gh_serve_query (add_issue w _) Hn)|reflexivity]).
  erewrite bind_normal by (eapply add_to_project_ok;
    [reflexivity|exact (gh_serve_add (add_issue w _) _ (has_issue_node_added _ _ _ _ _))|reflexivity]).
  erewrite bind_normal by (eapply set_status_ok; [reflexivity|reflexivity|
    exact (gh_serve_update (add_item (add_issue w _) _) _ fid oid (has_item_added _ _ _)
             (field_has_option_found _ _ _ _ Hf Hi))]).
  rewrite success_response_ok by discriminate. reflexivity.
Qed.

Lemma filed_same_repo w i fid oid : same_repo w (filed w i fid oid).
Proof. repeat split. Qed.

(** C11: refinement of the handler's contract by the GitHub model.  When
    the function is deployed for the repository and its project has a
    Status field with an Icebox option, a request with a non-empty string
    title is answered 201 with the new issue's URL and number, exactly one
    issue is added (the next number, the request's title, body and labels),
    exactly one project item is added for it, and that item's Status is
    Icebox. *)
Theorem github_files_issue_as_icebox env v w t fid opts oid :
  deployed env w -> string_titled v t ->
  find_status (gh_fields w) = Some (fid, opts) -> find_icebox opts = Some oid ->
  fst (run_handler env (BodyJson v) w) =
    Normal (json_response (success_body (cfg_of w) (JStr (html_url_of w (next_number w)))
                                        (JNum (next_number w))) 201) /\
  gh_issues (world (snd (run_handler env (BodyJson v) w))) =
    gh_issues w ++ [mk_issue (next_number w) t (member v "body") (member v "labels")] /\
  exists it, gh_items (world (snd (run_handler env (BodyJson v) w))) =
               gh_items w ++ [(it, node_of (next_number w))] /\
             In (it, fid, oid) (gh_values (world (snd (run_handler env (BodyJson v) w)))).
Proof.
  intros Hd Hv Hf Hi. rewrite (github_run_success env v w t fid opts oid Hd Hv Hf Hi). simpl.
  split; [reflexivity|split; [reflexivity|]]. eexists. split; [reflexivity|].
  apply in_or_app. right. now left.
Qed.

(** A POST whose title GitHub refuses leaves the world as it is. *)
Lemma gh_serve_create_refused w r :
  (forall t, title r = JStr t -> t = "") ->
  gh_serve w (create_issue_request (cfg_of w) r) = (rest_error 422 "Validation Failed", w).
Proof.
  intros Ht. unfold gh_serve, authorized. simpl. rewrite !String.eqb_refl. simpl.
  unfold gh_create. simpl. destruct (title r); try reflexivity.
  now rewrite (Ht _ eq_refl).
Qed.

Lemma issue_open_added w t b l :
  ~ In (next_number w) (gh_closed w ++ gh_deleted w) ->
  issue_open (add_issue w (mk_issue (next_number w) t b l)) (next_number w) = true.
Proof.
  intros Hn. unfold issue_open, is_deleted, add_issue. cbn [gh_issues gh_closed gh_deleted].
  rewrite existsb_app. simpl. rewrite Z.eqb_refl, orb_true_r. simpl.
  assert (Hf : forall xs, ~ In (next_number w) xs -> existsb (Z.eqb (next_number w)) xs = false).
  { intros xs Hl. apply not_true_iff_false. intros Hx. apply existsb_exists in Hx as (k & Hk & Hkn).
    apply Z.eqb_eq in Hkn. subst k. contradiction. }
  rewrite !Hf; [reflexivity| |]; intros Hx; apply Hn, in_or_app; auto.
Qed.

(** C12: no rollback.  When the project has no Status field, the
    handler answers 400 with the [TypeError] of line 102, and the world
    it leaves is exactly the world with the created issue added: the
    issue is still open (it was neither closed by a [PATCH] nor deleted),
    and no project item or field value was added.  GitHub would have
    honoured a compensating request; the handler sends none. *)
Theorem github_no_status_keeps_issue env v w t :
  deployed env w -> string_titled v t -> find_status (gh_fields w) = None ->
  ~ In (next_number w) (gh_closed w ++ gh_deleted w) ->
  fst (run_handler env (BodyJson v) w) = Normal (error_response options_error) /\
  world (snd (run_handler env (BodyJson v) w)) =
    add_issue w (mk_issue (next_number w) t (member v "body") (member v "labels")) /\
  issue_open (world (snd (run_handler env (BodyJson v) w))) (next_number w) = true.
Proof.
  intros Hd Hv Hf Hfresh. pose proof (string_titled_titled v t Hv) as Ht.
  pose proof (deployed_config_present env w Hd) as Hc. pose proof (deployed_config env w Hd) as Hcfg.
  destruct Hv as (_ & _ & Htitle & Hne). destruct Hd as (_ & _ & _ & _ & _ & _ & Hn).
  erewrite run_handler_throw.
  2:{ eapply handler_body_unresolved; [eassumption|eassumption|rewrite Hcfg;
        exact (gh_serve_create w (issue_request_of v) t Htitle Hne)|reflexivity|reflexivity
       |rewrite Hcfg; exact (gh_serve_query (add_issue w _) Hn)|reflexivity|].
      unfold resolve_spec, add_issue. cbn [gh_fields]. now rewrite Hf. }
  split; [reflexivity|split; [reflexivity|now apply issue_open_added]].
Qed.

(** On a deployed function and a board with Status and Icebox, every run
    either leaves GitHub untouched or files one new issue completely. *)
Lemma github_run_cases env req w fid opts oid :
  deployed env w -> find_status (gh_fields w) = Some (fid, opts) -> find_icebox opts = Some oid ->
  world (snd (run_handler env req w)) = w \/
  exists i, world (snd (run_handler env req w)) = filed w i fid oid.
Proof.
  intros Hd Hf Hi. pose proof (deployed_config_present env w Hd) as Hc.
  pose proof (deployed_config env w Hd) as Hcfg.
  destruct (parse_request_cases req (mk_rt w [])) as [(v & -> & Ht)|(e & He)].
  - assert (Hcase : (exists t, member v "title" = JStr t /\ t <> "") \/
                     (forall t, member v "title" = JStr t -> t = "")).
    { destruct (member v "title"); try (right; intros ? ?; discriminate).
      destruct (String.eqb s "") eqn:E.
      - right. intros t [= <-]. now apply String.eqb_eq.
      - left. exists s. split; [reflexivity|now apply String.eqb_neq]. }
    destruct Hcase as [(t & Htitle & Hne)|Hrefused].
    + right. eexists. erewrite (github_run_success env v w t fid opts oid Hd); [reflexivity| |exact Hf|exact Hi].
      destruct Ht as (Hu & Hn & _). repeat split; assumption.
    + left. erewrite handler_create_failed;
        [reflexivity|exact Hc|exact Ht|rewrite Hcfg; apply gh_serve_create_refused, Hrefused|reflexivity].
  - left. rewrite (run_handler_throw env req w e (mk_rt w [])); [reflexivity|].
    unfold handler_body. step read_config_ok. erewrite bind_throw by exact He. reflexivity.
Qed.

(** Every issue of the repository has a project item whose Status is
    the option [oid] of field [fid]. *)
Definition icebox_filed (fid oid : string) (w : gh_world) : Prop :=
  forall i, In i (gh_issues w) ->
  exists it, In (it, node_of (issue_number i)) (gh_items w) /\ In (it, fid, oid) (gh_values w).

(** Setting the new item's value keeps the values of the other items. *)
Lemma in_set_value w item fid oid it :
  In (it, fid, oid) (gh_values w) -> In (it, fid, oid) (gh_values (set_value w item fid oid)).
Proof.
  intros Hin. simpl. apply in_or_app.
  destruct (String.eqb it item) eqn:E; [apply String.eqb_eq in E; subst; right; now left|].
  left. apply filter_In. split; [exact Hin|]. simpl. now rewrite E.
Qed.

Lemma icebox_filed_filed fid oid w i : icebox_filed fid oid w -> icebox_filed fid oid (filed w i fid oid).
Proof.
  intros Hw j Hj. unfold filed in *. simpl in Hj. apply in_app_or in Hj as [Hj|[<-|[]]].
  - destruct (Hw j Hj) as (it & Hit & Hv). exists it. split; [simpl; apply in_or_app; now left|].
    now apply in_set_value.
  - eexists. split; [simpl; apply in_or_app; right; now left|].
    simpl. apply in_or_app. right. now left.
Qed.

(** A sequence of requests served one after the other. *)
Fixpoint serve_requests (env : string -> option string) (reqs : list body_read) (w : gh_world)
  : gh_world :=
  match reqs with
  | [] => w
  | req :: reqs' => serve_requests env reqs' (world (snd (run_handler env req w)))
  end.

(** C13: every issue is filed.  Deployed for a repository whose board
    has a Status field with an Icebox option, whatever sequence of
    requests the function serves (valid or not, with any title), every
    issue of the repository is on the board with Status Icebox, when it
    was so before: a run never leaves an issue created and unfiled. *)
Theorem github_every_issue_filed env reqs w fid opts oid :
  deployed env w -> find_status (gh_fields w) = Some (fid, opts) -> find_icebox opts = Some oid ->
  icebox_filed fid oid w -> icebox_filed fid oid (serve_requests env reqs w).
Proof.
  revert w. induction reqs as [|req reqs IH]; simpl; intros w Hd Hf Hi Hw; [exact Hw|].
  destruct (github_run_cases env req w fid opts oid Hd Hf Hi) as [->|(i & ->)];
    [now apply IH|].
  apply IH; [exact (deployed_same_repo _ _ _ Hd (filed_same_repo _ _ _ _))|exact Hf|exact Hi|].
  now apply icebox_filed_filed.
Qed.

End GitHubRefine.
