(* ===== verification/Examples.v ===== *)
(** Concrete runs of the handler on the scripted upstream of [Runtime]
    (the mocked GitHub of the spec's section 8) and on a world of the
    GitHub model: the spec's end-to-end example, computed, and one
    instance of each theorem of [HandlerCorrect] and [GitHubRefine] whose
    hypotheses are discharged by computation. *)

From Stdlib Require Import String Ascii ZArith List Bool.
From S2P Require Import Prelude JsValue Stringify Runtime Handler GitHubApi HandlerSpec HandlerCorrect GitHubModel GitHubRefine.
Import ListNotations JsValue Stringify Runtime Handler GitHubApi HandlerSpec HandlerCorrect GitHubModel GitHubRefine.
Open Scope string_scope.

Module Examples.

(** JSON text written with single quotes in place of double quotes. *)
Fixpoint squote_to_dq (s : string) : string :=
  match s with
  | EmptyString => EmptyString
  | String c s' => String (if Ascii.eqb c "'"%char then dq_char else c) (squote_to_dq s')
  end.

Definition ex_env (k : string) : option string :=
  if String.eqb k "GITHUB_TOKEN" then Some "t"
  else if String.eqb k "GITHUB_OWNER" then Some "o"
  else if String.eqb k "GITHUB_REPO" then Some "r"
  else None.

(** [{"title":"Bug X","body":"repro steps","labels":["bug"]}]. *)
Definition ex_request : jsval :=
  JObj [("title", JStr "Bug X"); ("body", JStr "repro steps"); ("labels", JArr [JStr "bug"])].

Definition ex_fields : list field_node :=
  [OtherField; SingleSelect "F1" "Status" [("O1", "Todo"); ("O2", "Icebox")]].

Definition ex_created : http_response :=
  mk_response 201 (BodyJson (issue_json "I_42" "https://github.com/o/r/issues/42" 42)).

Definition ex_project (fields : list field_node) : http_response :=
  mk_response 200 (BodyJson (project_data "P1" fields)).

Definition ex_added : http_response := mk_response 200 (BodyJson (add_item_data "IT1")).

Definition ex_updated : http_response := mk_response 200 (BodyJson JNull).

Definition ex_answers : list fetch_result :=
  [Fetched ex_created; Fetched (ex_project ex_fields); Fetched ex_added; Fetched ex_updated].

Lemma ex_config_present : config_present ex_env.
Proof. repeat split; eexists; (split; [reflexivity|discriminate]). Qed.

Lemma ex_titled : titled ex_request.
Proof. repeat split; discriminate. Qed.

#[local] Hint Resolve ex_config_present ex_titled : core.

(** The spec's end-to-end example: the request
    [{"title":"Bug X","body":"repro steps","labels":["bug"]}] against a
    fully successful upstream is answered 201 with exactly the body the
    spec gives. *)
Example handler_spec_example :
  fst (run_handler ex_env (BodyJson ex_request) ex_answers) =
    Normal (mk_resp 201 [("Content-Type", "application/json")]
      (Some (squote_to_dq
        "{'success':true,'data':{'issue_url':'https://github.com/o/r/issues/42','issue_number':42,'project_url':'https://github.com/orgs/o/projects/1'}}"))).
Proof. vm_compute. reflexivity. Qed.

Lemma handler_config_missing_witness :
  run_handler (fun _ => None) (BodyJson ex_request) ex_answers =
    (Normal (error_response (Error "Required environment variables are not set")),
     mk_rt ex_answers []).
Proof.
  apply (handler_config_missing _ _ _ "GITHUB_TOKEN"); [simpl; auto|].
  intros (v & Hv & _). discriminate.
Defined.

Lemma handler_title_missing_witness :
  run_handler ex_env (BodyJson (JObj [("body", JStr "no title")])) ex_answers =
    (Normal (error_response (Error "Issue title is required")), mk_rt ex_answers []).
Proof. apply handler_title_missing; [apply ex_config_present|discriminate|discriminate|reflexivity]. Defined.

Definition ex_rejected : http_response :=
  mk_response 422 (BodyJson (JObj [("message", JStr "Validation Failed")])).

Lemma handler_create_failed_witness :
  run_handler ex_env (BodyJson ex_request) [Fetched ex_rejected] =
    (Normal (error_response
       (Error ("GitHub API error: " ++ template_stringify (JObj [("message", JStr "Validation Failed")])))),
     mk_rt [] [create_issue_request (env_config ex_env) (issue_request_of ex_request)]).
Proof.
  apply (handler_create_failed ex_env ex_request [Fetched ex_rejected] [] ex_rejected);
    [apply ex_config_present|apply ex_titled|reflexivity|reflexivity].
Defined.

Definition ex_no_status : list field_node :=
  [OtherField; SingleSelect "F2" "Priority" [("O1", "High")]].

Lemma handler_status_missing_witness :
  run_handler ex_env (BodyJson ex_request)
    [Fetched ex_created; Fetched (ex_project ex_no_status)] =
    (Normal (error_response (TypeError "Cannot read properties of undefined (reading 'options')")),
     mk_rt [] [create_issue_request (env_config ex_env) (issue_request_of ex_request);
               project_query_request (env_config ex_env)]).
Proof.
  apply (handler_status_missing ex_env ex_request
           [Fetched ex_created; Fetched (ex_project ex_no_status)] [Fetched (ex_project ex_no_status)] []
           ex_created (ex_project ex_no_status)
           (issue_json "I_42" "https://github.com/o/r/issues/42" 42) "P1" ex_no_status);
    [apply ex_config_present|apply ex_titled|reflexivity..].
Defined.

Definition ex_no_icebox : list field_node := [SingleSelect "F1" "Status" [("O1", "Todo")]].

Lemma handler_icebox_missing_witness :
  run_handler ex_env (BodyJson ex_request)
    [Fetched ex_created; Fetched (ex_project ex_no_icebox)] =
    (Normal (error_response (Error "Status field or Icebox option not found in the project")),
     mk_rt [] [create_issue_request (env_config ex_env) (issue_request_of ex_request);
               project_query_request (env_config ex_env)]).
Proof.
  apply (handler_icebox_missing ex_env ex_request
           [Fetched ex_created; Fetched (ex_project ex_no_icebox)] [Fetched (ex_project ex_no_icebox)] []
           ex_created (ex_project ex_no_icebox)
           (issue_json "I_42" "https://github.com/o/r/issues/42" 42) "P1" ex_no_icebox
           "F1" [("O1", "Todo")]);
    [apply ex_config_present|apply ex_titled|reflexivity..].
Defined.

Lemma handler_success_witness :
  run_handler ex_env (BodyJson ex_request) ex_answers =
    (Normal (json_response (success_body (env_config ex_env)
                              (JStr "https://github.com/o/r/issues/42") (JNum 42)) 201),
     mk_rt [] [create_issue_request (env_config ex_env) (issue_request_of ex_request);
               project_query_request (env_config ex_env);
               add_item_request (env_config ex_env) (JStr "P1") (JStr "I_42");
               update_field_request (env_config ex_env) (JStr "P1") (JStr "IT1") (JStr "F1") (JStr "O2")]).
Proof.
  apply (handler_success ex_env ex_request ex_answers (tl ex_answers) (tl (tl ex_answers))
           [Fetched ex_updated] [] ex_created (ex_project ex_fields) ex_added ex_updated
           "I_42" "https://github.com/o/r/issues/42" 42 "P1" ex_fields
           "F1" [("O1", "Todo"); ("O2", "Icebox")] "O2" "IT1");
    [apply ex_config_present|apply ex_titled|reflexivity..].
Defined.

Definition ex_add_failed : http_response :=
  mk_response 200 (BodyJson (graphql_errors "Could not resolve to a node")).

Lemma handler_add_failed_witness :
  run_handler ex_env (BodyJson ex_request)
    [Fetched ex_created; Fetched (ex_project ex_fields); Fetched ex_add_failed] =
    (Normal (error_response (TypeError "Cannot read properties of null (reading 'addProjectV2ItemById')")),
     mk_rt [] [create_issue_request (env_config ex_env) (issue_request_of ex_request);
               project_query_request (env_config ex_env);
               add_item_request (env_config ex_env) (JStr "P1") (JStr "I_42")]).
Proof.
  apply (handler_add_failed ex_env ex_request
           [Fetched ex_created; Fetched (ex_project ex_fields); Fetched ex_add_failed]
           [Fetched (ex_project ex_fields); Fetched ex_add_failed] [Fetched ex_add_failed] []
           ex_created (ex_project ex_fields) ex_add_failed
           "I_42" "https://github.com/o/r/issues/42" 42 "P1" ex_fields
           "F1" [("O1", "Todo"); ("O2", "Icebox")] "O2" "Could not resolve to a node");
    [apply ex_config_present|apply ex_titled|reflexivity..].
Defined.

Lemma resolve_project_refines_witness :
  snd (resolve_project (env_config ex_env) (mk_rt [Fetched (ex_project ex_fields)] []))
    = mk_rt [] ([] ++ [project_query_request (env_config ex_env)]) /\
  (exists pm, fst (resolve_project (env_config ex_env) (mk_rt [Fetched (ex_project ex_fields)] []))
                = Normal pm /\ projectId pm = JStr "P1" /\
              get (statusField pm) "id" = Normal (JStr "F1") /\
              get (iceboxOption pm) "id" = Normal (JStr "O2")).
Proof.
  exact (resolve_project_refines (env_config ex_env) (mk_rt [Fetched (ex_project ex_fields)] [])
           (ex_project ex_fields) [] "P1" ex_fields eq_refl eq_refl).
Defined.

Open Scope list_scope.

(** A repository "o/r" with token "t" whose project 1 has a Status field
    with an Icebox option, and no issue yet. *)
Definition gw0 : gh_world := mk_world "o" "r" "t" 1 "P1" ex_fields [] [] [] [] [].

Lemma gw0_deployed : deployed ex_env gw0.
Proof. repeat split; discriminate. Qed.

Lemma ex_string_titled : string_titled ex_request "Bug X".
Proof. repeat split; discriminate. Qed.

Lemma github_files_issue_as_icebox_witness :
  fst (run_handler ex_env (BodyJson ex_request) gw0) =
    Normal (json_response (success_body (cfg_of gw0) (JStr (html_url_of gw0 (next_number gw0)))
                                        (JNum (next_number gw0))) 201) /\
  gh_issues (world (snd (run_handler ex_env (BodyJson ex_request) gw0))) =
    gh_issues gw0 ++ [mk_issue (next_number gw0) "Bug X" (member ex_request "body")
                               (member ex_request "labels")] /\
  exists it, gh_items (world (snd (run_handler ex_env (BodyJson ex_request) gw0))) =
               gh_items gw0 ++ [(it, node_of (next_number gw0))] /\
             In (it, "F1", "O2") (gh_values (world (snd (run_handler ex_env (BodyJson ex_request) gw0)))).
Proof.
  exact (github_files_issue_as_icebox ex_env ex_request gw0 "Bug X" "F1" [("O1", "Todo"); ("O2", "Icebox")]
           "O2" gw0_deployed ex_string_titled eq_refl eq_refl).
Defined.

Definition gw_no_status : gh_world := mk_world "o" "r" "t" 1 "P1" ex_no_status [] [] [] [] [].

Lemma github_no_status_keeps_issue_witness :
  fst (run_handler ex_env (BodyJson ex_request) gw_no_status) = Normal (error_response options_error) /\
  world (snd (run_handler ex_env (BodyJson ex_request) gw_no_status)) =
    add_issue gw_no_status (mk_issue (next_number gw_no_status) "Bug X" (member ex_request "body")
                                     (member ex_request "labels")) /\
  issue_open (world (snd (run_handler ex_env (BodyJson ex_request) gw_no_status)))
             (next_number gw_no_status) = true.
Proof.
  apply (github_no_status_keeps_issue ex_env ex_request gw_no_status "Bug X");
    [repeat split; discriminate|exact ex_string_titled|reflexivity|simpl; tauto].
Defined.

Lemma github_every_issue_filed_witness :
  icebox_filed "F1" "O2"
    (serve_requests ex_env [BodyJson ex_request; BodyJson (JObj []); BodyJson (JObj [("title", JNum 7)]);
                            BodyInvalid "Unexpected token"; BodyJson ex_request] gw0).
Proof.
  apply (github_every_issue_filed ex_env _ gw0 "F1" [("O1", "Todo"); ("O2", "Icebox")] "O2" gw0_deployed);
    [reflexivity|reflexivity|intros i []].
Defined.

Lemma handler_update_rejected_witness :
  run_handler ex_env (BodyJson ex_request)
    [Fetched ex_created; Fetched (ex_project ex_fields); Fetched ex_added; Rejected "fetch failed"] =
    (Normal (error_response (TypeError "fetch failed")),
     mk_rt [] [create_issue_request (env_config ex_env) (issue_request_of ex_request);
               project_query_request (env_config ex_env);
               add_item_request (env_config ex_env) (JStr "P1") (JStr "I_42");
               update_field_request (env_config ex_env) (JStr "P1") (JStr "IT1") (JStr "F1") (JStr "O2")]).
Proof.
  apply (handler_update_rejected ex_env ex_request
           [Fetched ex_created; Fetched (ex_project ex_fields); Fetched ex_added; Rejected "fetch failed"]
           [Fetched (ex_project ex_fields); Fetched ex_added; Rejected "fetch failed"]
           [Fetched ex_added; Rejected "fetch failed"] [Rejected "fetch failed"] []
           ex_created (ex_project ex_fields) ex_added
           "I_42" "https://github.com/o/r/issues/42" 42 "P1" ex_fields
           "F1" [("O1", "Todo"); ("O2", "Icebox")] "O2" "IT1" "fetch failed");
    [apply ex_config_present|apply ex_titled|reflexivity..].
Defined.

Lemma handler_unreadable_request_witness :
  run_handler ex_env (BodyInvalid "Unexpected end of JSON input") ex_answers =
    (Normal (error_response (SyntaxError "Unexpected end of JSON input")), mk_rt ex_answers []) /\
  run_handler ex_env (BodyJson JNull) ex_answers =
    (Normal (error_response
               (TypeError "Cannot destructure property 'title' of '(intermediate value)' as it is null.")),
     mk_rt ex_answers []).
Proof. apply (handler_unreadable_request ex_env ex_answers), ex_config_present. Defined.

End Examples.
